(** * Server-side session resolution of next-firebase-auth

    A shallow embedding of [src/withAuthUserTokenSSR.js]: the per-request
    handler that reads the session cookie, resolves the [AuthUser], applies
    the redirect policy and merges the page's own props.

    JavaScript values are an inductive type, objects are finite maps, thrown
    exceptions and rejected promises are the [Throw] outcome of a small
    state-and-exception monad whose state is the trace of the calls made to
    the collaborators. *)

From Stdlib Require Import ZArith Ascii String List.
From stdpp Require Import gmap strings list fin_maps pretty.

#[local] Set Warnings "-register-all".
#[local] Open Scope string_scope.

(** ** JavaScript values *)

(** A JavaScript string is a sequence of 16-bit code units.  It is kept as
    the byte string of its CESU-8 form (one to three bytes per code unit),
    so that ASCII text reads as itself.  A number [JNum m e] is the double
    nearest to [m * 10^e]. *)
Inductive JsVal : Type :=
| JUndefined
| JNull
| JBool (b : bool)
| JNum (m e : Z)
| JStr (s : string)
| JArr (xs : list JsVal)
| JObj (fields : gmap string JsVal).

(** What a [throw] or a rejected promise carries. *)
Inductive JsError : Type :=
| SyntaxError
| TypeError
| Error (message : string)
| Rejection (reason : JsVal).

Inductive Outcome (A : Type) : Type :=
| Return (a : A)
| Throw (e : JsError).
Arguments Return {A} a.
Arguments Throw {A} e.

(** The double nearest to [m * 10^e] is zero exactly when
    [|m * 10^e| <= 2^-1075], half of the least subnormal. *)
Definition number_is_zero (m e : Z) : bool :=
  ((m =? 0) || ((e <? 0) && (Z.abs m * 2 ^ 1075 <=? 10 ^ (- e))))%Z.

(** [ToBoolean]. *)
Definition js_truthy (v : JsVal) : bool :=
  match v with
  | JUndefined | JNull => false
  | JBool b => b
  | JNum m e => negb (number_is_zero m e)
  | JStr s => negb (String.eqb s "")
  | JArr _ | JObj _ => true
  end.

(** Truthiness of a value that is a string, [null] or [undefined]. *)
Definition truthy_string (o : option string) : bool :=
  match o with
  | Some s => negb (String.eqb s "")
  | None => false
  end.

(** [a || b] on such values. *)
Definition js_or (a b : option string) : option string :=
  if truthy_string a then a else b.

(** The code units of a string: its CESU-8 bytes grouped by lead byte. *)
Definition unit_width (c : ascii) : nat :=
  let n := N_of_ascii c in
  if (n <? 192)%N then 1 else if (n <? 224)%N then 2 else 3.

Fixpoint code_units_from (pending : list ascii) (wait : nat) (cs : list ascii)
  : list string :=
  match cs with
  | [] =>
      match pending with
      | [] => []
      | _ => [string_of_list_ascii (rev pending)]
      end
  | c :: cs' =>
      match wait with
      | S (S k) => code_units_from (c :: pending) (S k) cs'
      | S O => string_of_list_ascii (rev (c :: pending)) :: code_units_from [] 0 cs'
      | O =>
          match unit_width c with
          | S (S k) => code_units_from [c] (S k) cs'
          | _ => string_of_list_ascii [c] :: code_units_from [] 0 cs'
          end
      end
  end.

Definition code_units (s : string) : list string :=
  code_units_from [] 0 (list_ascii_of_string s).

(** The own enumerable properties of a value, as an object spread
    [{...v}] copies them: the members of an object, the indices of an array
    or of a string, nothing for the other values. *)
Definition indexed (xs : list JsVal) : gmap string JsVal :=
  list_to_map (imap (fun i x => (pretty i, x)) xs).

Definition own_props (v : JsVal) : gmap string JsVal :=
  match v with
  | JObj fields => fields
  | JArr xs => indexed xs
  | JStr s => indexed (JStr <$> code_units s)
  | _ => ∅
  end.

(** [{...target, ...source}]: every own property of [source] is set on
    [target], replacing the value of a key that is already there. *)
Definition object_spread (target source : gmap string JsVal)
  : gmap string JsVal :=
  source ∪ target.

(** Reading an own property [v[k]] of a value other than [null] and
    [undefined] (on those the read throws, see [destructure]); [length] is
    the one own property of arrays and strings that a spread does not copy.
    Properties inherited from a prototype are outside the model. *)
Definition get_prop (v : JsVal) (k : string) : JsVal :=
  match own_props v !! k with
  | Some x => x
  | None =>
      match v with
      | JArr xs => if String.eqb k "length" then JNum (Z.of_nat (length xs)) 0 else JUndefined
      | JStr s => if String.eqb k "length" then JNum (Z.of_nat (length (code_units s))) 0 else JUndefined
      | _ => JUndefined
      end
  end.

(** ** JSON.parse

    The text is cut into tokens by a machine that reads one character at a
    time, and the tokens are assembled by a second machine with a stack of
    the arrays and objects that are still open.  Both run once over their
    input, so parsing is total. *)
Module JSON.

Inductive Token : Type :=
| TLBrace | TRBrace | TLBracket | TRBracket | TColon | TComma
| TString (s : string)
| TNumber (m e : Z)
| TTrue | TFalse | TNull.

Definition code (c : ascii) : N := N_of_ascii c.

Definition is_space (c : ascii) : bool :=
  let n := code c in ((n =? 32) || (n =? 9) || (n =? 10) || (n =? 13))%N.

Definition is_digit (c : ascii) : bool :=
  let n := code c in ((48 <=? n) && (n <=? 57))%N.

Definition is_lower (c : ascii) : bool :=
  let n := code c in ((97 <=? n) && (n <=? 122))%N.

(** The characters a number can be made of: digits, [+ - . e E]. *)
Definition is_number_char (c : ascii) : bool :=
  let n := code c in
  (is_digit c || (n =? 43) || (n =? 45) || (n =? 46) || (n =? 101) || (n =? 69))%N.

Definition hex_value (c : ascii) : option N :=
  let n := code c in
  if ((48 <=? n) && (n <=? 57))%N then Some (n - 48)%N
  else if ((97 <=? n) && (n <=? 102))%N then Some (n - 87)%N
  else if ((65 <=? n) && (n <=? 70))%N then Some (n - 55)%N
  else None.

(** The bytes of one code unit. *)
Definition cesu8 (n : N) : list ascii :=
  if (n <? 128)%N then [ascii_of_N n]
  else if (n <? 2048)%N then
    [ascii_of_N (192 + n / 64); ascii_of_N (128 + n mod 64)]
  else
    [ascii_of_N (224 + n / 4096); ascii_of_N (128 + (n / 64) mod 64);
     ascii_of_N (128 + n mod 64)].

Fixpoint span_digits (cs : list ascii) : list ascii * list ascii :=
  match cs with
  | c :: cs' =>
      if is_digit c then
        let '(ds, rest) := span_digits cs' in (c :: ds, rest)
      else ([], cs)
  | [] => ([], [])
  end.

Definition digits_value (ds : list ascii) : Z :=
  fold_left (fun acc c => (10 * acc + Z.of_N (code c - 48))%Z) ds 0%Z.

(** A number lexeme: an optional minus sign; an integer part that is a
    single zero or starts with a nonzero digit; an optional fraction, a dot
    and at least one digit; an optional exponent, [e] or [E], an optional
    sign and at least one digit. *)
Definition is_nil {A} (l : list A) : bool :=
  match l with [] => true | _ => false end.

Definition strip_char (n : N) (cs : list ascii) : option (list ascii) :=
  match cs with
  | c :: rest => if (code c =? n)%N then Some rest else None
  | [] => None
  end.

Definition integer_part_ok (int : list ascii) : bool :=
  match int with
  | [] => false
  | c :: more => negb (code c =? 48)%N || is_nil more
  end.

Definition fraction_of (cs : list ascii) : option (list ascii * list ascii) :=
  match strip_char 46 cs with
  | Some rest =>
      let '(ds, rest') := span_digits rest in
      if is_nil ds then None else Some (ds, rest')
  | None => Some ([], cs)
  end.

Definition exponent_of (cs : list ascii) : option Z :=
  match cs with
  | [] => Some 0%Z
  | c :: rest =>
      if ((code c =? 101) || (code c =? 69))%N then
        let '(minus, rest) :=
          match strip_char 45 rest, strip_char 43 rest with
          | Some rest', _ => (true, rest')
          | None, Some rest' => (false, rest')
          | None, None => (false, rest)
          end in
        let '(ds, rest) := span_digits rest in
        if is_nil ds || negb (is_nil rest) then None
        else Some (if minus then (- digits_value ds)%Z else digits_value ds)
      else None
  end.

Definition number_of_lexeme (cs : list ascii) : option (Z * Z) :=
  let '(negative, cs) :=
    match strip_char 45 cs with
    | Some rest => (true, rest)
    | None => (false, cs)
    end in
  let '(int, cs) := span_digits cs in
  if integer_part_ok int then
    '(frac, cs) ← fraction_of cs;
    ex ← exponent_of cs;
    let m := digits_value (int ++ frac) in
    Some (if negative then (- m)%Z else m, (ex - Z.of_nat (length frac))%Z)
  else None.

Definition word_token (cs : list ascii) : option Token :=
  let w := string_of_list_ascii cs in
  if String.eqb w "true" then Some TTrue
  else if String.eqb w "false" then Some TFalse
  else if String.eqb w "null" then Some TNull
  else None.

(** What the tokenizer is in the middle of; the accumulators hold the
    characters read so far, last one first. *)
Inductive LexMode : Type :=
| LDefault
| LWord (acc : list ascii)
| LNumber (acc : list ascii)
| LString (acc : list ascii)
| LEscape (acc : list ascii)
| LUnicode (acc : list ascii) (digits : list N).

(** A character read between two tokens. *)
Definition lex_default (c : ascii) (toks : list Token)
  : option (LexMode * list Token) :=
  let n := code c in
  if is_space c then Some (LDefault, toks)
  else if (n =? 123)%N then Some (LDefault, TLBrace :: toks)
  else if (n =? 125)%N then Some (LDefault, TRBrace :: toks)
  else if (n =? 91)%N then Some (LDefault, TLBracket :: toks)
  else if (n =? 93)%N then Some (LDefault, TRBracket :: toks)
  else if (n =? 58)%N then Some (LDefault, TColon :: toks)
  else if (n =? 44)%N then Some (LDefault, TComma :: toks)
  else if (n =? 34)%N then Some (LString [], toks)
  else if (is_digit c || (n =? 45)%N) then Some (LNumber [c], toks)
  else if is_lower c then Some (LWord [c], toks)
  else None.

Definition escape_char (c : ascii) : option ascii :=
  let n := code c in
  if ((n =? 34) || (n =? 92) || (n =? 47))%N then Some c
  else if (n =? 98)%N then Some (ascii_of_N 8)
  else if (n =? 102)%N then Some (ascii_of_N 12)
  else if (n =? 110)%N then Some (ascii_of_N 10)
  else if (n =? 114)%N then Some (ascii_of_N 13)
  else if (n =? 116)%N then Some (ascii_of_N 9)
  else None.

Definition lex_step (mode : LexMode) (c : ascii) (toks : list Token)
  : option (LexMode * list Token) :=
  match mode with
  | LDefault => lex_default c toks
  | LWord acc =>
      if is_lower c then Some (LWord (c :: acc), toks)
      else t ← word_token (rev acc); lex_default c (t :: toks)
  | LNumber acc =>
      if is_number_char c then Some (LNumber (c :: acc), toks)
      else '(m, e) ← number_of_lexeme (rev acc); lex_default c (TNumber m e :: toks)
  | LString acc =>
      let n := code c in
      if (n =? 34)%N then Some (LDefault, TString (string_of_list_ascii (rev acc)) :: toks)
      else if (n =? 92)%N then Some (LEscape acc, toks)
      else if (n <? 32)%N then None
      else Some (LString (c :: acc), toks)
  | LEscape acc =>
      if (code c =? 117)%N then Some (LUnicode acc [], toks)
      else e ← escape_char c; Some (LString (e :: acc), toks)
  | LUnicode acc ds =>
      d ← hex_value c;
      match ds with
      | [d2; d1; d0] =>
          let n := (((d0 * 16 + d1) * 16 + d2) * 16 + d)%N in
          Some (LString (rev (cesu8 n) ++ acc), toks)
      | _ => Some (LUnicode acc (d :: ds), toks)
      end
  end.

Fixpoint lex (mode : LexMode) (toks : list Token) (cs : list ascii)
  : option (list Token) :=
  match cs with
  | c :: cs' => '(mode', toks') ← lex_step mode c toks; lex mode' toks' cs'
  | [] =>
      match mode with
      | LDefault => Some (rev toks)
      | LWord acc => t ← word_token (rev acc); Some (rev (t :: toks))
      | LNumber acc => '(m, e) ← number_of_lexeme (rev acc); Some (rev (TNumber m e :: toks))
      | _ => None
      end
  end.

Definition tokenize (s : string) : option (list Token) :=
  lex LDefault [] (list_ascii_of_string s).

(** An array or an object that is still open, waiting for its next value. *)
Inductive Frame : Type :=
| InArr (done : list JsVal)
| InObj (members : gmap string JsVal) (key : string).

Inductive PState : Type :=
| PValue (stack : list Frame)
| PArrStart (stack : list Frame)
| PObjStart (stack : list Frame)
| PObjKey (members : gmap string JsVal) (stack : list Frame)
| PColon (members : gmap string JsVal) (key : string) (stack : list Frame)
| PAfter (v : JsVal) (stack : list Frame).

Definition parse_value (t : Token) (stack : list Frame) : option PState :=
  match t with
  | TString s => Some (PAfter (JStr s) stack)
  | TNumber m e => Some (PAfter (JNum m e) stack)
  | TTrue => Some (PAfter (JBool true) stack)
  | TFalse => Some (PAfter (JBool false) stack)
  | TNull => Some (PAfter JNull stack)
  | TLBracket => Some (PArrStart stack)
  | TLBrace => Some (PObjStart stack)
  | _ => None
  end.

(** A member whose key is already there replaces the earlier one. *)
Definition parse_step (st : PState) (t : Token) : option PState :=
  match st with
  | PValue stack => parse_value t stack
  | PArrStart stack =>
      match t with
      | TRBracket => Some (PAfter (JArr []) stack)
      | _ => parse_value t (InArr [] :: stack)
      end
  | PObjStart stack =>
      match t with
      | TRBrace => Some (PAfter (JObj ∅) stack)
      | TString k => Some (PColon ∅ k stack)
      | _ => None
      end
  | PObjKey members stack =>
      match t with
      | TString k => Some (PColon members k stack)
      | _ => None
      end
  | PColon members k stack =>
      match t with
      | TColon => Some (PValue (InObj members k :: stack))
      | _ => None
      end
  | PAfter v (InArr done :: stack) =>
      match t with
      | TComma => Some (PValue (InArr (v :: done) :: stack))
      | TRBracket => Some (PAfter (JArr (rev (v :: done))) stack)
      | _ => None
      end
  | PAfter v (InObj members k :: stack) =>
      match t with
      | TComma => Some (PObjKey (<[k:=v]> members) stack)
      | TRBrace => Some (PAfter (JObj (<[k:=v]> members)) stack)
      | _ => None
      end
  | PAfter v [] => None
  end.

Fixpoint assemble (st : PState) (ts : list Token) : option JsVal :=
  match ts with
  | t :: ts' => st' ← parse_step st t; assemble st' ts'
  | [] =>
      match st with
      | PAfter v [] => Some v
      | _ => None
      end
  end.

(** [JSON.parse(text)]: the value, or a [SyntaxError]. *)
Definition parse (text : string) : Outcome JsVal :=
  match tokenize text ≫= assemble (PValue []) with
  | Some v => Return v
  | None => Throw SyntaxError
  end.

End JSON.

(** String literals of the development hold no quotation mark; JSON texts
    are written with [quoted]. *)
Definition dquote : string := String (ascii_of_N 34) "".
Definition quoted (s : string) : string := dquote ++ s ++ dquote.

(** ** The data of a request *)

(** Modelled from the spec: the identity an [AuthUser] object stands for;
    the objects are made by [src/createAuthUser], which is not part of the
    sources.  [id] is [null] for the anonymous user.  The handler itself
    reads [id] and calls [serialize]. *)
Record AuthUser : Type := {
  id : option string;
  claims : gmap string JsVal;
  idTokenValue : option string;
}.

(** Modelled from the spec: the table of actions [AuthAction], whose file
    [src/AuthAction] is not part of the sources; the handler only compares
    its constants with [===]. *)
Module AuthAction.

Inductive t : Type := RENDER | REDIRECT_TO_LOGIN | REDIRECT_TO_APP.

(** [a === b] *)
Definition eqb (a b : t) : bool :=
  match a, b with
  | RENDER, RENDER
  | REDIRECT_TO_LOGIN, REDIRECT_TO_LOGIN
  | REDIRECT_TO_APP, REDIRECT_TO_APP => true
  | _, _ => false
  end.

End AuthAction.

(** The first argument of the factory; a field left out is [None]. *)
Record Options : Type := {
  opt_whenAuthed : option AuthAction.t;
  opt_whenUnauthed : option AuthAction.t;
  opt_appPageURL : option string;
  opt_authPageURL : option string;
}.

(** The second argument of the factory. *)
Record ModeOptions : Type := {
  opt_useToken : option bool;
}.

Record CookieOptions : Type := {
  keys : list string;
  secure : bool;
  signed : bool;
}.

(** What [getConfig()] returns. *)
Record Config : Type := {
  cookies : CookieOptions;
  config_authPageURL : option string;
  config_appPageURL : option string;
}.

Record Request : Type := { jar : gmap string string }.
Record Response : Type := { sent : list (string * string) }.

(** The context object Next.js passes to [getServerSideProps]; the handler
    sets its [AuthUser] property. *)
Record Ctx : Type := {
  req : Request;
  res : Response;
  ctx_AuthUser : option AuthUser;
}.

Record RedirectTarget : Type := {
  destination : option string;
  permanent : bool;
}.

(** The two shapes of the handler's result. *)
Inductive SSRResult : Type :=
| Redirect (redirect : RedirectTarget)
| Props (props : gmap string JsVal).

(** ** Calls and their trace *)

#[local] Open Scope list_scope.

Inductive RedirectCheck : Type := WhenUnauthed | WhenAuthed.

(** The calls the handler makes, and the two redirect tests it evaluates,
    in the order in which they happen. *)
Inductive Event : Type :=
| EvGetCookie (name : string)
| EvVerifyIdToken (idToken refreshToken : JsVal)
| EvCreateAuthUser (serializedAuthUser : option string)
| EvCheck (which : RedirectCheck)
| EvGetServerSideProps (ctx : Ctx).

Definition Trace : Type := list Event.

(** A computation extends the trace and returns or throws. *)
Definition M (A : Type) : Type := Trace → Outcome A * Trace.

#[local] Instance M_ret : MRet M := λ A a t, (Return a, t).

#[local] Instance M_bind : MBind M := λ A B f m t,
  match m t with
  | (Return a, t') => f a t'
  | (Throw e, t') => (Throw e, t')
  end.

Definition emit (e : Event) : M unit := λ t, (Return tt, t ++ [e]).

Definition throw {A} (e : JsError) : M A := λ t, (Throw e, t).

Definition lift {A} (o : Outcome A) : M A := λ t, (o, t).

(** A run from the empty trace. *)
Definition run {A} (m : M A) : Outcome A * Trace := m [].

Definition is_verify (e : Event) : bool :=
  match e with EvVerifyIdToken _ _ => true | _ => false end.

Definition is_provider_call (e : Event) : bool :=
  match e with EvGetServerSideProps _ => true | _ => false end.

Definition is_cookie_read (e : Event) : bool :=
  match e with EvGetCookie _ => true | _ => false end.

(** How many events of a trace satisfy [p]. *)
Definition count (p : Event → bool) (t : Trace) : nat :=
  length (List.filter p t).
Arguments count : simpl never.

(** ** The collaborators *)

(** The functions the handler imports; none of them is part of the
    sources.  [verifyIdToken] makes the network calls and may reject;
    [serialize] is the method of the [AuthUser] objects. *)
Record Env : Type := {
  getConfig : Config;
  getCookie : string → Request → Response → CookieOptions → option string;
  getAuthUserCookieName : string;
  getAuthUserTokensCookieName : string;
  verifyIdToken : JsVal → JsVal → Outcome AuthUser;
  deserialize : string → option string * gmap string JsVal;
  serialize : AuthUser → string;
}.

(** The canonical anonymous identity. *)
Definition anonymous : AuthUser :=
  {| id := None; claims := ∅; idTokenValue := None |}.

(** The messages of the two configuration errors. *)
Definition authPageURL_missing : string :=
  ("When " ++ quoted "whenUnauthed" ++
   " is set to AuthAction.REDIRECT_TO_LOGIN, " ++ quoted "authPageURL" ++
   " must be set.")%string.

Definition appPageURL_missing : string :=
  ("When " ++ quoted "whenAuthed" ++
   " is set to AuthAction.REDIRECT_TO_APP, " ++ quoted "appPageURL" ++
   " must be set.")%string.

(** [const { idToken, refreshToken } = v] *)
Definition destructure (v : JsVal) : Outcome (JsVal * JsVal) :=
  match v with
  | JUndefined | JNull => Throw TypeError
  | _ => Return (get_prop v "idToken", get_prop v "refreshToken")
  end.

(** Lines 32 to 39: the parameters of the factory, each with its default;
    a missing argument is the empty object. *)
Definition no_options : Options :=
  {| opt_whenAuthed := None; opt_whenUnauthed := None;
     opt_appPageURL := None; opt_authPageURL := None |}.

Definition no_mode : ModeOptions := {| opt_useToken := None |}.

Definition whenAuthed_of (options : option Options) : AuthAction.t :=
  default AuthAction.RENDER (opt_whenAuthed (default no_options options)).

Definition whenUnauthed_of (options : option Options) : AuthAction.t :=
  default AuthAction.RENDER (opt_whenUnauthed (default no_options options)).

Definition appPageURL_of (options : option Options) : option string :=
  opt_appPageURL (default no_options options).

Definition authPageURL_of (options : option Options) : option string :=
  opt_authPageURL (default no_options options).

Definition useToken_of (mode : option ModeOptions) : bool :=
  default true (opt_useToken (default no_mode mode)).

(** [{ props: { AuthUserSerialized, ...composedProps } }] *)
Definition merged (AuthUserSerialized : string) (composedProps : JsVal)
  : SSRResult :=
  Props (object_spread {[ "AuthUserSerialized" := JStr AuthUserSerialized ]}
           (own_props composedProps)).

(** [cookieValStr ? JSON.parse(cookieValStr) : {}] *)
Definition parse_cookie (cookieValStr : option string) : Outcome JsVal :=
  if truthy_string cookieValStr then JSON.parse (default "" cookieValStr)
  else Return (JObj ∅).

Section Handler.

Context (env : Env).

(** Modelled from the spec: [createAuthUser], whose file
    [src/createAuthUser] is not part of the sources.  Without a serialized
    user it gives the anonymous identity; a serialized user is decoded as it
    is, and carries no token. *)
Definition createAuthUser (serializedAuthUser : option string) : AuthUser :=
  match serializedAuthUser with
  | None => anonymous
  | Some s =>
      let '(i, c) := deserialize env s in
      {| id := i; claims := c; idTokenValue := None |}
  end.

Definition call_getCookie (name : string) (ctx : Ctx) (o : CookieOptions)
  : M (option string) :=
  _ ← emit (EvGetCookie name);
  mret (getCookie env name (req ctx) (res ctx) o).

Definition call_verifyIdToken (idToken refreshToken : JsVal) : M AuthUser :=
  _ ← emit (EvVerifyIdToken idToken refreshToken);
  lift (verifyIdToken env idToken refreshToken).

Definition call_createAuthUser (serializedAuthUser : option string)
  : M AuthUser :=
  _ ← emit (EvCreateAuthUser serializedAuthUser);
  mret (createAuthUser serializedAuthUser).

(** The session cookie of a mode, as [getCookie] reads it. *)
Definition session_cookie (useToken : bool) (ctx : Ctx) : option string :=
  getCookie env
    (if useToken then getAuthUserTokensCookieName env
     else getAuthUserCookieName env)
    (req ctx) (res ctx) (cookies (getConfig env)).

(** Lines 43 to 86: the user, from the tokens cookie or from the user
    cookie. *)
Definition resolve (useToken : bool) (ctx : Ctx) : M AuthUser :=
  let cookieOptions := cookies (getConfig env) in
  if useToken then
    cookieValStr ← call_getCookie (getAuthUserTokensCookieName env) ctx cookieOptions;
    payload ← lift (parse_cookie cookieValStr);
    '(idToken, refreshToken) ← lift (destructure payload);
    if js_truthy idToken then call_verifyIdToken idToken refreshToken
    else call_createAuthUser None
  else
    cookieValStr ← call_getCookie (getAuthUserCookieName env) ctx cookieOptions;
    call_createAuthUser cookieValStr.

(** Lines 89 to 113: the result to return at once, if any. *)
Definition decideRedirect (whenAuthed whenUnauthed : AuthAction.t)
    (appPageURL authPageURL : option string) (AuthUser : AuthUser)
  : M (option SSRResult) :=
  _ ← emit (EvCheck WhenUnauthed);
  if negb (truthy_string (id AuthUser))
     && AuthAction.eqb whenUnauthed AuthAction.REDIRECT_TO_LOGIN then
    let authRedirectDestination :=
      js_or authPageURL (config_authPageURL (getConfig env)) in
    if negb (truthy_string authRedirectDestination) then
      throw (Error authPageURL_missing)
    else
      mret (Some (Redirect {| destination := authRedirectDestination;
                              permanent := false |}))
  else
    _ ← emit (EvCheck WhenAuthed);
    if truthy_string (id AuthUser)
       && AuthAction.eqb whenAuthed AuthAction.REDIRECT_TO_APP then
      let appRedirectDestination :=
        js_or appPageURL (config_appPageURL (getConfig env)) in
      if negb (truthy_string appRedirectDestination) then
        throw (Error appPageURL_missing)
      else
        mret (Some (Redirect {| destination := appRedirectDestination;
                                permanent := false |}))
    else mret None.

(** [ctx.AuthUser = AuthUser] *)
Definition set_AuthUser (ctx : Ctx) (u : AuthUser) : Ctx :=
  {| req := req ctx; res := res ctx; ctx_AuthUser := Some u |}.

(** Lines 115 to 128: the props of the page, under the serialized user. *)
Definition render (getServerSidePropsFunc : option (Ctx → Outcome JsVal))
    (ctx : Ctx) (AuthUser : AuthUser) (AuthUserSerialized : string)
  : M SSRResult :=
  composedProps ←
    match getServerSidePropsFunc with
    | Some f =>
        let ctx := set_AuthUser ctx AuthUser in
        _ ← emit (EvGetServerSideProps ctx);
        lift (f ctx)
    | None => mret (JObj ∅)
    end;
  mret (merged AuthUserSerialized composedProps).

(** The handler [withAuthUserTokenSSR(options, mode)(getServerSidePropsFunc)]
    applied to a context; an argument left out is [None]. *)
Definition withAuthUserTokenSSR (options : option Options)
    (mode : option ModeOptions)
    (getServerSidePropsFunc : option (Ctx → Outcome JsVal)) (ctx : Ctx)
  : M SSRResult :=
  let whenAuthed := whenAuthed_of options in
  let whenUnauthed := whenUnauthed_of options in
  let appPageURL := appPageURL_of options in
  let authPageURL := authPageURL_of options in
  let useToken := useToken_of mode in
  AuthUser ← resolve useToken ctx;
  let AuthUserSerialized := serialize env AuthUser in
  redirect ← decideRedirect whenAuthed whenUnauthed appPageURL authPageURL AuthUser;
  match redirect with
  | Some result => mret result
  | None => render getServerSidePropsFunc ctx AuthUser AuthUserSerialized
  end.

End Handler.

(** ** A sample deployment

    Unsigned cookies, no default redirect URL, a verifier that accepts the
    id token [good], exchanges the refresh token [fresh] and rejects
    everything else. *)

Definition sample_config : Config :=
  {| cookies := {| keys := ["secret"]; secure := true; signed := false |};
     config_authPageURL := None;
     config_appPageURL := None |}.

Definition sample_user (token : string) : AuthUser :=
  {| id := Some "uid-1"; claims := ∅; idTokenValue := Some token |}.

Definition is_string (v : JsVal) (s : string) : bool :=
  match v with
  | JStr s' => String.eqb s' s
  | _ => false
  end.

Definition sample_verifyIdToken (idToken refreshToken : JsVal)
  : Outcome AuthUser :=
  if is_string idToken "good" then Return (sample_user "good")
  else if is_string refreshToken "fresh" then Return (sample_user "renewed")
  else Throw (Error "auth/id-token-expired").

Definition sample_env : Env :=
  {| getConfig := sample_config;
     getCookie := λ name req _ _, jar req !! name;
     getAuthUserCookieName := "app.AuthUser";
     getAuthUserTokensCookieName := "app.AuthUserTokens";
     verifyIdToken := sample_verifyIdToken;
     deserialize := λ s, (Some s, ∅);
     serialize := λ u, default "anonymous" (id u) |}.

(** A request that carries the given cookies. *)
Definition request (cookies : list (string * string)) : Ctx :=
  {| req := {| jar := list_to_map cookies |};
     res := {| sent := [] |};
     ctx_AuthUser := None |}.

(** A JSON object text with the given string members. *)
Definition member (kv : string * string) : string :=
  (quoted kv.1 ++ ":" ++ quoted kv.2)%string.

Definition object_text (members : list (string * string)) : string :=
  ("{" ++ String.concat "," (member <$> members) ++ "}")%string.

Definition tokens_cookie (members : list (string * string)) : Ctx :=
  request [("app.AuthUserTokens", object_text members)].

(** Requests: without cookies; with a tokens cookie that is not JSON; with
    one that is the JSON [null]; with an id token and no refresh token; with
    a refresh token alone; with tokens the verifier rejects; with tokens it
    accepts. *)
Definition no_cookies : Ctx := request [].
Definition malformed_tokens : Ctx := request [("app.AuthUserTokens", "{")].
Definition null_tokens : Ctx := request [("app.AuthUserTokens", "null")].
Definition id_token_only : Ctx := tokens_cookie [("idToken", "good")].
Definition refresh_token_only : Ctx := tokens_cookie [("refreshToken", "fresh")].
Definition stale_tokens : Ctx :=
  tokens_cookie [("idToken", "stale"); ("refreshToken", "revoked")].
Definition good_tokens : Ctx :=
  tokens_cookie [("idToken", "good"); ("refreshToken", "fresh")].

Definition array_tokens : Ctx := request [("app.AuthUserTokens", "[1,2]")].

(** The sample deployment with default URLs in its configuration. *)
Definition sample_env_with_urls : Env :=
  {| getConfig :=
       {| cookies := cookies sample_config;
          config_authPageURL := Some "/auth";
          config_appPageURL := Some "/app" |};
     getCookie := getCookie sample_env;
     getAuthUserCookieName := getAuthUserCookieName sample_env;
     getAuthUserTokensCookieName := getAuthUserTokensCookieName sample_env;
     verifyIdToken := verifyIdToken sample_env;
     deserialize := deserialize sample_env;
     serialize := serialize sample_env |}.

(** A request that carries both cookies. *)
Definition both_cookies : Ctx :=
  request [("app.AuthUserTokens", object_text [("idToken", "good")]);
           ("app.AuthUser", "uid-9")].

(** Pages: one whose props are empty, one with a title, one that sets the
    reserved key itself. *)
Definition empty_page : Ctx → Outcome JsVal := λ _, Return (JObj ∅).
Definition titled_page : Ctx → Outcome JsVal :=
  λ _, Return (JObj {[ "title" := JStr "Home" ]}).
Definition spoofing_page : Ctx → Outcome JsVal :=
  λ _, Return (JObj {[ "AuthUserSerialized" := JStr "spoofed" ]}).

(** A page whose provider throws. *)
Definition failing_page : Ctx → Outcome JsVal := λ _, Throw (Error "boom").

(** Policies: a login wall with and without its URL. *)
Definition login_wall (url : option string) : Options :=
  {| opt_whenAuthed := None;
     opt_whenUnauthed := Some AuthAction.REDIRECT_TO_LOGIN;
     opt_appPageURL := None;
     opt_authPageURL := url |}.

(** A page kept for signed-out visitors, with and without its URL. *)
Definition guest_only (url : option string) : Options :=
  {| opt_whenAuthed := Some AuthAction.REDIRECT_TO_APP;
     opt_whenUnauthed := None;
     opt_appPageURL := url;
     opt_authPageURL := None |}.

(** Options whose actions sit on the wrong side, with both URLs. *)
Definition swapped_actions : Options :=
  {| opt_whenAuthed := Some AuthAction.REDIRECT_TO_LOGIN;
     opt_whenUnauthed := Some AuthAction.REDIRECT_TO_APP;
     opt_appPageURL := Some "/home";
     opt_authPageURL := Some "/login" |}.

(** ** Running the handler *)

#[local] Opaque JSON.parse.

(** Unfold the monad and the calls, and compute. *)
Ltac step :=
  unfold call_getCookie, call_verifyIdToken, call_createAuthUser,
    mbind, M_bind, mret, M_ret, lift, throw, emit in *;
  cbn in *.

(** No redirect test among the events of a given list. *)
Ltac no_check :=
  let c := fresh "c" in
  let Hin := fresh "Hin" in
  intros c Hin;
  repeat (apply elem_of_cons in Hin as [Hin|Hin]; [discriminate Hin|]);
  by apply elem_of_nil in Hin.

Section Runs.

Context (env : Env).

Lemma bind_run {A B} (m : M A) (f : A → M B) (t : Trace) :
  (m ≫= f) t =
  match m t with
  | (Return a, t') => f a t'
  | (Throw e, t') => (Throw e, t')
  end.
Proof. reflexivity. Qed.

Lemma resolve_token_run (ctx : Ctx) :
  run (resolve env true ctx) =
  let name := getAuthUserTokensCookieName env in
  match parse_cookie (session_cookie env true ctx) with
  | Throw e => (Throw e, [EvGetCookie name])
  | Return payload =>
      match destructure payload with
      | Throw e => (Throw e, [EvGetCookie name])
      | Return (idToken, refreshToken) =>
          if js_truthy idToken then
            (verifyIdToken env idToken refreshToken,
             [EvGetCookie name; EvVerifyIdToken idToken refreshToken])
          else
            (Return anonymous, [EvGetCookie name; EvCreateAuthUser None])
      end
  end.
Proof.
  unfold run, resolve, session_cookie. step.
  destruct (parse_cookie _) as [payload|e]; step; [|done].
  destruct (destructure payload) as [[idToken refreshToken]|e]; step; [|done].
  destruct (js_truthy idToken); step; [|done].
  by destruct (verifyIdToken env idToken refreshToken).
Qed.

Lemma resolve_snapshot_run (ctx : Ctx) :
  run (resolve env false ctx) =
  (Return (createAuthUser env (session_cookie env false ctx)),
   [EvGetCookie (getAuthUserCookieName env);
    EvCreateAuthUser (session_cookie env false ctx)]).
Proof. reflexivity. Qed.

Lemma decide_run wA wU app auth (u : AuthUser) (t : Trace) :
  decideRedirect env wA wU app auth u t =
  if negb (truthy_string (id u))
     && AuthAction.eqb wU AuthAction.REDIRECT_TO_LOGIN then
    (let url := js_or auth (config_authPageURL (getConfig env)) in
     if truthy_string url
     then Return (Some (Redirect {| destination := url; permanent := false |}))
     else Throw (Error authPageURL_missing),
     t ++ [EvCheck WhenUnauthed])
  else
    (if truthy_string (id u)
        && AuthAction.eqb wA AuthAction.REDIRECT_TO_APP then
       let url := js_or app (config_appPageURL (getConfig env)) in
       if truthy_string url
       then Return (Some (Redirect {| destination := url; permanent := false |}))
       else Throw (Error appPageURL_missing)
     else Return None,
     t ++ [EvCheck WhenUnauthed; EvCheck WhenAuthed]).
Proof.
  unfold decideRedirect. step.
  destruct (negb _ && AuthAction.eqb wU _); step.
  - by destruct (truthy_string (js_or auth _)).
  - rewrite <- app_assoc. cbn.
    destruct (truthy_string (id u) && _); [|done].
    by destruct (truthy_string (js_or app _)).
Qed.

Lemma render_run f (ctx : Ctx) (u : AuthUser) (s : string) (t : Trace) :
  render f ctx u s t =
  match f with
  | None => (Return (merged s (JObj ∅)), t)
  | Some g =>
      (match g (set_AuthUser ctx u) with
       | Return composedProps => Return (merged s composedProps)
       | Throw e => Throw e
       end,
       t ++ [EvGetServerSideProps (set_AuthUser ctx u)])
  end.
Proof.
  unfold render. destruct f as [g|]; step; [|done].
  by destruct (g _).
Qed.

Lemma handler_run options mode f (ctx : Ctx) :
  run (withAuthUserTokenSSR env options mode f ctx) =
  match run (resolve env (useToken_of mode) ctx) with
  | (Throw e, t) => (Throw e, t)
  | (Return u, t) =>
      match decideRedirect env (whenAuthed_of options) (whenUnauthed_of options)
              (appPageURL_of options) (authPageURL_of options) u t with
      | (Throw e, t') => (Throw e, t')
      | (Return (Some result), t') => (Return result, t')
      | (Return None, t') => render f ctx u (serialize env u) t'
      end
  end.
Proof.
  unfold run, withAuthUserTokenSSR. step.
  destruct (resolve _ _ _ _) as [[u|e] t]; [|done].
  by destruct (decideRedirect _ _ _ _ _ _ _) as [[[result|]|e] t'].
Qed.

Lemma count_app (p : Event → bool) (t t' : Trace) :
  count p (t ++ t') = count p t + count p t'.
Proof. unfold count. by rewrite List.filter_app, length_app. Qed.

(** Resolution makes no redirect test and does not call the provider. *)
Lemma resolve_events useToken (ctx : Ctx) r (t : Trace) :
  run (resolve env useToken ctx) = (r, t) →
  count is_provider_call t = 0 ∧ ∀ c, EvCheck c ∉ t.
Proof.
  destruct useToken.
  - rewrite resolve_token_run. cbn.
    destruct (parse_cookie _) as [payload|e].
    2: { intros H. injection H as _ <-. split; [done | no_check]. }
    destruct (destructure payload) as [[idToken refreshToken]|e].
    2: { intros H. injection H as _ <-. split; [done | no_check]. }
    destruct (js_truthy idToken); intros H; injection H as _ <-;
      (split; [done | no_check]).
  - rewrite resolve_snapshot_run. intros H. injection H as _ <-.
    split; [done | no_check].
Qed.

End Runs.

(** ** Resolution *)

Section Resolution.

Context (env : Env).

(** C7: a request without the session cookie of the mode resolves to the
    anonymous identity, in token mode and in snapshot mode alike, and the
    verifier, the only collaborator that goes to the network, is not
    called. *)
Theorem no_cookie_resolves_anonymous (useToken : bool) (ctx : Ctx) :
  session_cookie env useToken ctx = None →
  ∃ t, run (resolve env useToken ctx) = (Return anonymous, t)
       ∧ count is_verify t = 0.
Proof.
  intros Hcookie. destruct useToken.
  - eexists. rewrite resolve_token_run, Hcookie. cbn. done.
  - eexists. rewrite resolve_snapshot_run, Hcookie. cbn. done.
Qed.

(** C9: in snapshot mode resolution reads the user cookie and hands it to
    [createAuthUser] as it is; it never throws, the verifier is not called
    at any point of the request, and the identity carries no token. *)
Theorem snapshot_mode_trusts_user_cookie (ctx : Ctx) options f :
  let cookie :=
    getCookie env (getAuthUserCookieName env) (req ctx) (res ctx)
      (cookies (getConfig env)) in
  let snapshot := Some {| opt_useToken := Some false |} in
  run (resolve env (useToken_of snapshot) ctx) =
    (Return (createAuthUser env cookie),
     [EvGetCookie (getAuthUserCookieName env); EvCreateAuthUser cookie])
  ∧ idTokenValue (createAuthUser env cookie) = None
  ∧ count is_verify
      (run (withAuthUserTokenSSR env options snapshot f ctx)).2 = 0.
Proof.
  intros cookie snapshot. split; [done|]. split.
  - unfold createAuthUser. destruct cookie as [s|]; [|done].
    by destruct (deserialize env s).
  - rewrite handler_run. change (useToken_of snapshot) with false.
    rewrite resolve_snapshot_run, decide_run.
    destruct (negb _ && _); cbn.
    + by destruct (truthy_string (js_or _ _)).
    + destruct (truthy_string (id _) && _).
      * by destruct (truthy_string (js_or _ _)).
      * rewrite render_run. by destruct f as [g|].
Qed.

(** C3, as the code has it: in token mode a cookie that is absent, or
    whose decoded payload has no [idToken] (or a falsy one), is no
    credential, whatever [refreshToken] is: the verifier is not called and
    the identity is the anonymous one. *)
Theorem no_idToken_is_no_credential (ctx : Ctx) payload idToken refreshToken :
  session_cookie env true ctx = None
  ∨ (parse_cookie (session_cookie env true ctx) = Return payload
     ∧ destructure payload = Return (idToken, refreshToken)
     ∧ js_truthy idToken = false) →
  run (resolve env true ctx) =
    (Return anonymous,
     [EvGetCookie (getAuthUserTokensCookieName env); EvCreateAuthUser None])
  ∧ count is_verify (run (resolve env true ctx)).2 = 0.
Proof.
  rewrite resolve_token_run. cbn.
  intros [-> | (-> & -> & ->)]; by cbn.
Qed.

(** C2, as the code has it: in token mode a cookie that holds anything but
    the empty string and is not well-formed JSON makes the handler throw the
    [SyntaxError] of [JSON.parse], before any other call; the empty string
    alone is taken for an absent credential. *)
Theorem malformed_cookie_throws (ctx : Ctx) options mode f (s : string) :
  useToken_of mode = true →
  session_cookie env true ctx = Some s →
  JSON.parse s = Throw SyntaxError →
  (s ≠ "" →
   run (withAuthUserTokenSSR env options mode f ctx) =
     (Throw SyntaxError, [EvGetCookie (getAuthUserTokensCookieName env)]))
  ∧ (s = "" →
     run (resolve env true ctx) =
       (Return anonymous,
        [EvGetCookie (getAuthUserTokensCookieName env);
         EvCreateAuthUser None])).
Proof.
  intros Hmode Hcookie Hparse. split; intros Hs.
  - rewrite handler_run, Hmode, resolve_token_run, Hcookie.
    unfold parse_cookie. cbn.
    destruct (String.eqb_spec s "") as [|_]; [done|].
    cbn. by rewrite Hparse.
  - by rewrite resolve_token_run, Hcookie, Hs.
Qed.

(** C4, as the code has it: when the verifier fails, the handler does not
    catch the failure: it throws the verifier's error right after the call,
    and makes no anonymous identity. *)
Theorem verification_failure_escapes (ctx : Ctx) options mode f
    payload idToken refreshToken (e : JsError) :
  useToken_of mode = true →
  parse_cookie (session_cookie env true ctx) = Return payload →
  destructure payload = Return (idToken, refreshToken) →
  js_truthy idToken = true →
  verifyIdToken env idToken refreshToken = Throw e →
  run (withAuthUserTokenSSR env options mode f ctx) =
    (Throw e,
     [EvGetCookie (getAuthUserTokensCookieName env);
      EvVerifyIdToken idToken refreshToken]).
Proof.
  intros Hmode Hparse Hfields Htruthy Hverify.
  by rewrite handler_run, Hmode, resolve_token_run, Hparse, Hfields,
    Htruthy, Hverify.
Qed.

End Resolution.

(** ** Redirects and props *)

Section Policy.

Context (env : Env).

Lemma check_order (t0 rest pre post : Trace) :
  (∀ c, EvCheck c ∉ t0) →
  t0 ++ EvCheck WhenUnauthed :: rest = pre ++ EvCheck WhenAuthed :: post →
  EvCheck WhenUnauthed ∈ pre.
Proof.
  revert pre. induction t0 as [|e t0 IH]; intros [|e' pre] Hfree Heq;
    cbn in Heq.
  - discriminate Heq.
  - injection Heq as <- _. apply elem_of_cons. by left.
  - injection Heq as -> _. destruct (Hfree WhenAuthed). apply elem_of_cons.
    by left.
  - injection Heq as _ Heq. apply elem_of_cons. right.
    apply IH; [|done]. intros c Hin. apply (Hfree c), elem_of_cons.
    by right.
Qed.

(** The trace of a request: the events of resolution, then the test for
    the unauthenticated redirect, then whatever follows it. *)
Lemma handler_trace (ctx : Ctx) options mode f r (t : Trace) :
  run (withAuthUserTokenSSR env options mode f ctx) = (r, t) →
  ∃ t0, (∀ c, EvCheck c ∉ t0)
        ∧ (t = t0 ∨ ∃ rest, t = t0 ++ EvCheck WhenUnauthed :: rest).
Proof.
  rewrite handler_run.
  destruct (run (resolve _ _ _)) as [[u|e] t0] eqn:Hresolve.
  2: { intros H. injection H as _ <-. exists t0. split; [|by left].
       by apply (resolve_events env _ _ _ _ Hresolve). }
  intros Hrun. exists t0.
  split; [by apply (resolve_events env _ _ _ _ Hresolve)|]. right.
  rewrite decide_run in Hrun.
  destruct (negb _ && _).
  - exists []. cbn in Hrun.
    destruct (truthy_string (js_or _ _)); by injection Hrun as _ <-.
  - destruct (truthy_string (id u) && _).
    + exists [EvCheck WhenAuthed]. cbn in Hrun.
      destruct (truthy_string (js_or _ _)); by injection Hrun as _ <-.
    + rewrite render_run in Hrun. destruct f as [g|].
      * exists [EvCheck WhenAuthed; EvGetServerSideProps (set_AuthUser ctx u)].
        injection Hrun as _ <-. by rewrite <- app_assoc.
      * exists [EvCheck WhenAuthed]. by injection Hrun as _ <-.
Qed.

(** C5: when a redirect is due (no user and [REDIRECT_TO_LOGIN], or a user
    and [REDIRECT_TO_APP]) and neither the option nor the configuration
    gives its URL, the handler throws the error that names the missing
    option; it returns no result and does not call the provider. *)
Theorem missing_redirect_url_is_fatal (ctx : Ctx) options mode f u t0 :
  run (resolve env (useToken_of mode) ctx) = (Return u, t0) →
  (truthy_string (id u) = false
   ∧ whenUnauthed_of options = AuthAction.REDIRECT_TO_LOGIN
   ∧ truthy_string (authPageURL_of options) = false
   ∧ truthy_string (config_authPageURL (getConfig env)) = false)
  ∨ (truthy_string (id u) = true
     ∧ whenAuthed_of options = AuthAction.REDIRECT_TO_APP
     ∧ truthy_string (appPageURL_of options) = false
     ∧ truthy_string (config_appPageURL (getConfig env)) = false) →
  ∃ message t,
    run (withAuthUserTokenSSR env options mode f ctx) = (Throw (Error message), t)
    ∧ message =
        (if truthy_string (id u) then appPageURL_missing
         else authPageURL_missing)
    ∧ count is_provider_call t = 0.
Proof.
  intros Hresolve Hdue.
  destruct (resolve_events env _ _ _ _ Hresolve) as [Hcount _].
  rewrite handler_run, Hresolve, decide_run. unfold js_or.
  destruct Hdue as [(-> & -> & -> & ->) | (-> & -> & -> & ->)]; cbn;
    do 2 eexists; (split; [done|]); (split; [done|]);
    by rewrite count_app, Hcount.
Qed.

(** C6: a redirect the handler returns is never permanent; an anonymous
    user under [whenUnauthed: REDIRECT_TO_LOGIN, authPageURL: "/login"]
    gets the redirect to [/login]; and the test for the unauthenticated
    redirect comes before the test for the authenticated one, which is not
    made at all when the first one redirects. *)
Theorem redirects_are_temporary (ctx : Ctx) options mode f r (t : Trace) :
  run (withAuthUserTokenSSR env options mode f ctx) = (r, t) →
  (∀ target, r = Return (Redirect target) → permanent target = false)
  ∧ (∀ pre post,
       t = pre ++ EvCheck WhenAuthed :: post → EvCheck WhenUnauthed ∈ pre)
  ∧ (∀ u t0,
       run (resolve env (useToken_of mode) ctx) = (Return u, t0) →
       id u = None →
       whenUnauthed_of options = AuthAction.REDIRECT_TO_LOGIN →
       authPageURL_of options = Some "/login" →
       r = Return (Redirect {| destination := Some "/login";
                               permanent := false |})
       ∧ t = t0 ++ [EvCheck WhenUnauthed]).
Proof.
  intros Hrun. split; [|split].
  - intros target ->. revert Hrun. rewrite handler_run.
    destruct (run (resolve _ _ _)) as [[u|e] t0]; [|done].
    rewrite decide_run.
    destruct (negb _ && _); cbn.
    { destruct (truthy_string (js_or _ _)); [|done].
      intros H. by injection H as <- _. }
    destruct (truthy_string (id u) && _).
    { destruct (truthy_string (js_or _ _)); [|done].
      intros H. by injection H as <- _. }
    rewrite render_run. destruct f as [g|]; [|done].
    by destruct (g _).
  - intros pre post ->.
    destruct (handler_trace _ _ _ _ _ _ Hrun) as (t0 & Hfree & [Ht | [rest Ht]]).
    + destruct (Hfree WhenAuthed). rewrite <- Ht.
      apply elem_of_app. right. apply elem_of_cons. by left.
    + by apply (check_order t0 rest pre post).
  - intros u t0 Hresolve Hid Hwhen Hurl. revert Hrun.
    rewrite handler_run, Hresolve, decide_run, Hid, Hwhen, Hurl. cbn.
    intros H. by injection H as <- <-.
Qed.

(** C8: when resolution gives a user and the policy decides no redirect,
    a provider that was supplied is called exactly once, with the context
    of the request, its [req] and [res] untouched, in which [AuthUser] is
    that user; its props are merged into the result. *)
Theorem provider_is_called_once (ctx : Ctx) options mode g u t0 t1 :
  run (resolve env (useToken_of mode) ctx) = (Return u, t0) →
  decideRedirect env (whenAuthed_of options) (whenUnauthed_of options)
    (appPageURL_of options) (authPageURL_of options) u t0
    = (Return None, t1) →
  let ctx' := set_AuthUser ctx u in
  let result := run (withAuthUserTokenSSR env options mode (Some g) ctx) in
  result.2 = t1 ++ [EvGetServerSideProps ctx']
  ∧ count is_provider_call result.2 = 1
  ∧ ctx_AuthUser ctx' = Some u
  ∧ req ctx' = req ctx
  ∧ res ctx' = res ctx
  ∧ result.1 =
      match g ctx' with
      | Return composedProps => Return (merged (serialize env u) composedProps)
      | Throw e => Throw e
      end.
Proof.
  intros Hresolve Hdecide ctx' result. subst result.
  rewrite handler_run, Hresolve, Hdecide, render_run. cbn.
  split; [done|]. split; [|done].
  destruct (resolve_events env _ _ _ _ Hresolve) as [Hcount _].
  rewrite decide_run in Hdecide. rewrite count_app.
  destruct (negb _ && _).
  { cbn in Hdecide. destruct (truthy_string (js_or _ _)); discriminate Hdecide. }
  injection Hdecide as _ <-. by rewrite count_app, Hcount.
Qed.

(** C10, as the code has it: the factory called without arguments is the
    factory called with [RENDER], [RENDER], no URL and [useToken: true];
    for every user that resolution gives, its handler decides no redirect
    and throws no configuration error: the result is never a redirect; it
    is the props when there is no provider or the provider returns, and
    the provider's own error when the provider throws. *)
Theorem defaults_always_render (ctx : Ctx) f u t0 :
  run (resolve env true ctx) = (Return u, t0) →
  let defaults :=
    {| opt_whenAuthed := Some AuthAction.RENDER;
       opt_whenUnauthed := Some AuthAction.RENDER;
       opt_appPageURL := None;
       opt_authPageURL := None |} in
  let result := run (withAuthUserTokenSSR env None None f ctx) in
  withAuthUserTokenSSR env None None f ctx =
    withAuthUserTokenSSR env (Some defaults)
      (Some {| opt_useToken := Some true |}) f ctx
  ∧ decideRedirect env (whenAuthed_of None) (whenUnauthed_of None)
      (appPageURL_of None) (authPageURL_of None) u t0
    = (Return None, t0 ++ [EvCheck WhenUnauthed; EvCheck WhenAuthed])
  ∧ (∀ target, result.1 ≠ Return (Redirect target))
  ∧ match f with
    | None => result.1 = Return (merged (serialize env u) (JObj ∅))
    | Some g =>
        match g (set_AuthUser ctx u) with
        | Return composedProps =>
            result.1 = Return (merged (serialize env u) composedProps)
        | Throw e => result.1 = Throw e
        end
    end.
Proof.
  intros Hresolve defaults result. subst result.
  split; [done|].
  assert (decideRedirect env (whenAuthed_of None) (whenUnauthed_of None)
            (appPageURL_of None) (authPageURL_of None) u t0
          = (Return None, t0 ++ [EvCheck WhenUnauthed; EvCheck WhenAuthed]))
    as Hdecide.
  { rewrite decide_run. cbn. by rewrite !andb_false_r. }
  split; [done|].
  rewrite handler_run. change (useToken_of None) with true.
  rewrite Hresolve, Hdecide, render_run.
  destruct f as [g|]; cbn; [|done].
  by destruct (g _).
Qed.

(** C1, as the code has it: the props of the result always hold the key
    [AuthUserSerialized], also when the provider returns an empty object;
    every key the provider sets keeps the provider's value, the reserved
    key included, because the provider's props are spread after it; the
    reserved key holds the serialized user when the provider does not set
    it. *)
Theorem merged_props_hold_reserved_key (ctx : Ctx) options mode f props t :
  run (withAuthUserTokenSSR env options mode f ctx) = (Return (Props props), t) →
  ∃ u t0 composedProps,
    run (resolve env (useToken_of mode) ctx) = (Return u, t0)
    ∧ match f with
      | Some g => g (set_AuthUser ctx u) = Return composedProps
      | None => composedProps = JObj ∅
      end
    ∧ is_Some (props !! "AuthUserSerialized")
    ∧ (∀ k v, own_props composedProps !! k = Some v → props !! k = Some v)
    ∧ (own_props composedProps !! "AuthUserSerialized" = None →
       props !! "AuthUserSerialized" = Some (JStr (serialize env u))).
Proof.
  rewrite handler_run.
  destruct (run (resolve _ _ _)) as [[u|e] t0]; [|done].
  rewrite decide_run.
  assert (∀ c, merged (serialize env u) c = Props props →
            is_Some (props !! "AuthUserSerialized")
            ∧ (∀ k v, own_props c !! k = Some v → props !! k = Some v)
            ∧ (own_props c !! "AuthUserSerialized" = None →
               props !! "AuthUserSerialized" = Some (JStr (serialize env u))))
    as Hmerge.
  { intros c H. injection H as <-. unfold object_spread. repeat split.
    - rewrite lookup_union.
      destruct (own_props c !! _); by rewrite ?lookup_singleton_eq.
    - intros k v Hk. by apply lookup_union_Some_l.
    - intros Hnone. rewrite lookup_union_r by done.
      apply lookup_singleton_eq. }
  destruct (negb _ && _); cbn.
  { by destruct (truthy_string (js_or _ _)). }
  destruct (truthy_string (id u) && _).
  { by destruct (truthy_string (js_or _ _)). }
  rewrite render_run. destruct f as [g|].
  - destruct (g _) as [c|e] eqn:Hg; [|done].
    intros H. injection H as H _. exists u, t0, c. split; [done|].
    split; [done|]. apply Hmerge. by rewrite <- H.
  - intros H. injection H as H _. exists u, t0, (JObj ∅).
    split; [done|]. split; [done|]. apply Hmerge. by rewrite <- H.
Qed.

End Policy.

(** ** The sample deployment at work *)

Example parse_tokens :
  JSON.parse (object_text [("idToken", "good"); ("refreshToken", "fresh")])
  = Return (JObj {[ "idToken" := JStr "good"; "refreshToken" := JStr "fresh" ]}).
Proof. vm_compute. reflexivity. Qed.

Example parse_values :
  JSON.parse " [1, -2.50e-3, true, null, {}, [[]], 0.0] "
  = Return (JArr [JNum 1 0; JNum (-250) (-5); JBool true; JNull; JObj ∅;
                  JArr [JArr []]; JNum 0 (-1)]).
Proof. vm_compute. reflexivity. Qed.

Example parse_escapes :
  JSON.parse (quoted "a\u0041\n\\\u00e9")
  = Return (JStr (string_of_list_ascii
                    (ascii_of_N <$> [97; 65; 10; 92; 195; 169]%N))).
Proof. vm_compute. reflexivity. Qed.

Example parse_malformed :
  Forall (λ text, JSON.parse text = Throw SyntaxError)
    [""; "{"; "nul"; "01"; "1."; "-"; "1e"; "[1,]"; "{,}"; "[1 2]"; "1 1";
     "tru e"; "[[]"; "undefined"; quoted "a" ++ "x"; quoted "\x"]%string.
Proof. repeat constructor. Qed.

(** A payload that is [null] has no property to read: the destructuring
    throws. *)
Example null_payload_throws :
  run (withAuthUserTokenSSR sample_env None None None null_tokens)
  = (Throw TypeError, [EvGetCookie "app.AuthUserTokens"]).
Proof. vm_compute. reflexivity. Qed.

(** A number so small that its double is zero is falsy. *)
Example tiny_number_is_falsy :
  js_truthy (JNum 1 (-400)) = false ∧ js_truthy (JNum 1 (-300)) = true.
Proof. split; vm_compute; reflexivity. Qed.

(** C1, against the claim: the page sets [AuthUserSerialized] itself, and
    the result carries the page's value, not the serialized user. *)
Lemma page_overrides_reserved_key :
  run (withAuthUserTokenSSR sample_env None None (Some spoofing_page) no_cookies)
  = (Return (Props {[ "AuthUserSerialized" := JStr "spoofed" ]}),
     [EvGetCookie "app.AuthUserTokens"; EvCreateAuthUser None;
      EvCheck WhenUnauthed; EvCheck WhenAuthed;
      EvGetServerSideProps (set_AuthUser no_cookies anonymous)])
  ∧ JStr (serialize sample_env anonymous) ≠ JStr "spoofed".
Proof. split; [vm_compute; reflexivity | discriminate]. Qed.

(** An empty page on the sample deployment: the reserved key is there. *)
Lemma merged_props_hold_reserved_key_witness :
  let props : gmap string JsVal := {[ "AuthUserSerialized" := JStr "anonymous" ]} in
  let t := [EvGetCookie "app.AuthUserTokens"; EvCreateAuthUser None;
            EvCheck WhenUnauthed; EvCheck WhenAuthed;
            EvGetServerSideProps (set_AuthUser no_cookies anonymous)] in
  run (withAuthUserTokenSSR sample_env None None (Some empty_page) no_cookies)
    = (Return (Props props), t)
  ∧ ∃ u t0 composedProps,
      run (resolve sample_env (useToken_of None) no_cookies) = (Return u, t0)
      ∧ empty_page (set_AuthUser no_cookies u) = Return composedProps
      ∧ is_Some (props !! "AuthUserSerialized")
      ∧ (∀ k v, own_props composedProps !! k = Some v → props !! k = Some v)
      ∧ (own_props composedProps !! "AuthUserSerialized" = None →
         props !! "AuthUserSerialized"
         = Some (JStr (serialize sample_env u))).
Proof.
  intros props t. split; [vm_compute; reflexivity|].
  apply (merged_props_hold_reserved_key sample_env no_cookies None None
           (Some empty_page) props t).
  vm_compute; reflexivity.
Defined.

(** C2, against the claim: the tokens cookie holds a lone brace, and the
    handler throws the [SyntaxError] instead of rendering for the anonymous
    user. *)
Lemma malformed_cookie_fails_the_request :
  session_cookie sample_env true malformed_tokens = Some "{"
  ∧ JSON.parse "{" = Throw SyntaxError
  ∧ run (withAuthUserTokenSSR sample_env None None None malformed_tokens)
    = (Throw SyntaxError, [EvGetCookie "app.AuthUserTokens"]).
Proof. repeat split; vm_compute; reflexivity. Qed.

(** The lone brace on the sample deployment. *)
Lemma malformed_cookie_throws_witness :
  useToken_of None = true
  ∧ session_cookie sample_env true malformed_tokens = Some "{"
  ∧ JSON.parse "{" = Throw SyntaxError
  ∧ ("{" ≠ "" →
     run (withAuthUserTokenSSR sample_env None None None malformed_tokens)
     = (Throw SyntaxError,
        [EvGetCookie (getAuthUserTokensCookieName sample_env)]))
  ∧ ("{" = "" →
     run (resolve sample_env true malformed_tokens)
     = (Return anonymous,
        [EvGetCookie (getAuthUserTokensCookieName sample_env);
         EvCreateAuthUser None])).
Proof.
  split; [reflexivity|]. split; [reflexivity|].
  split; [vm_compute; reflexivity|].
  apply (malformed_cookie_throws sample_env malformed_tokens None None None "{");
    vm_compute; reflexivity.
Defined.

(** C3, against the claim: the payload has an [idToken] and no
    [refreshToken], and the verifier is called all the same; the user is
    the verified one, not the anonymous one. *)
Lemma id_token_alone_is_verified :
  parse_cookie (session_cookie sample_env true id_token_only)
  = Return (JObj {[ "idToken" := JStr "good" ]})
  ∧ run (resolve sample_env true id_token_only)
    = (Return (sample_user "good"),
       [EvGetCookie "app.AuthUserTokens";
        EvVerifyIdToken (JStr "good") JUndefined])
  ∧ sample_user "good" ≠ anonymous.
Proof. repeat split; [vm_compute; reflexivity .. | discriminate]. Qed.

(** A refresh token alone on the sample deployment: no verification. *)
Lemma no_idToken_is_no_credential_witness :
  let payload := JObj {[ "refreshToken" := JStr "fresh" ]} in
  (parse_cookie (session_cookie sample_env true refresh_token_only)
   = Return payload
   ∧ destructure payload = Return (JUndefined, JStr "fresh")
   ∧ js_truthy JUndefined = false)
  ∧ run (resolve sample_env true refresh_token_only)
    = (Return anonymous,
       [EvGetCookie (getAuthUserTokensCookieName sample_env);
        EvCreateAuthUser None])
  ∧ count is_verify (run (resolve sample_env true refresh_token_only)).2 = 0.
Proof.
  intros payload.
  assert (parse_cookie (session_cookie sample_env true refresh_token_only)
          = Return payload
          ∧ destructure payload = Return (JUndefined, JStr "fresh")
          ∧ js_truthy JUndefined = false) as Hpayload.
  { repeat split; vm_compute; reflexivity. }
  split; [exact Hpayload|].
  apply (no_idToken_is_no_credential sample_env refresh_token_only payload
           JUndefined (JStr "fresh")).
  right. exact Hpayload.
Defined.

(** C4, against the claim: the verifier rejects the tokens, and the
    handler throws the verifier's error instead of going on with the
    anonymous user. *)
Lemma rejected_tokens_fail_the_request :
  verifyIdToken sample_env (JStr "stale") (JStr "revoked")
  = Throw (Error "auth/id-token-expired")
  ∧ run (withAuthUserTokenSSR sample_env None None None stale_tokens)
    = (Throw (Error "auth/id-token-expired"),
       [EvGetCookie "app.AuthUserTokens";
        EvVerifyIdToken (JStr "stale") (JStr "revoked")]).
Proof. split; vm_compute; reflexivity. Qed.

(** Rejected tokens on the sample deployment. *)
Lemma verification_failure_escapes_witness :
  let payload :=
    JObj {[ "idToken" := JStr "stale"; "refreshToken" := JStr "revoked" ]} in
  useToken_of None = true
  ∧ parse_cookie (session_cookie sample_env true stale_tokens) = Return payload
  ∧ destructure payload = Return (JStr "stale", JStr "revoked")
  ∧ js_truthy (JStr "stale") = true
  ∧ verifyIdToken sample_env (JStr "stale") (JStr "revoked")
    = Throw (Error "auth/id-token-expired")
  ∧ run (withAuthUserTokenSSR sample_env None None (Some titled_page) stale_tokens)
    = (Throw (Error "auth/id-token-expired"),
       [EvGetCookie (getAuthUserTokensCookieName sample_env);
        EvVerifyIdToken (JStr "stale") (JStr "revoked")]).
Proof.
  intros payload. repeat (split; [vm_compute; reflexivity|]).
  apply (verification_failure_escapes sample_env stale_tokens None None
           (Some titled_page) payload (JStr "stale") (JStr "revoked")
           (Error "auth/id-token-expired"));
    vm_compute; reflexivity.
Defined.

(** Snapshot mode without cookies on the sample deployment. *)
Lemma no_cookie_resolves_anonymous_witness :
  session_cookie sample_env false no_cookies = None
  ∧ ∃ t, run (resolve sample_env false no_cookies) = (Return anonymous, t)
         ∧ count is_verify t = 0.
Proof.
  split; [reflexivity|].
  apply (no_cookie_resolves_anonymous sample_env false no_cookies).
  reflexivity.
Defined.

(** A login wall without URL on the sample deployment. *)
Lemma missing_redirect_url_is_fatal_witness :
  let options := Some (login_wall None) in
  let t0 := [EvGetCookie "app.AuthUserTokens"; EvCreateAuthUser None] in
  run (resolve sample_env (useToken_of None) no_cookies) = (Return anonymous, t0)
  ∧ (truthy_string (id anonymous) = false
     ∧ whenUnauthed_of options = AuthAction.REDIRECT_TO_LOGIN
     ∧ truthy_string (authPageURL_of options) = false
     ∧ truthy_string (config_authPageURL (getConfig sample_env)) = false)
  ∧ ∃ message t,
      run (withAuthUserTokenSSR sample_env options None (Some titled_page) no_cookies)
      = (Throw (Error message), t)
      ∧ message =
          (if truthy_string (id anonymous) then appPageURL_missing
           else authPageURL_missing)
      ∧ count is_provider_call t = 0.
Proof.
  intros options t0.
  split; [vm_compute; reflexivity|]. split; [repeat split|].
  apply (missing_redirect_url_is_fatal sample_env no_cookies options None
           (Some titled_page) anonymous t0).
  - vm_compute; reflexivity.
  - left. repeat split.
Defined.

(** A login wall at [/login] on the sample deployment. *)
Lemma redirects_are_temporary_witness :
  let options := Some (login_wall (Some "/login")) in
  let r : Outcome SSRResult :=
    Return (Redirect {| destination := Some "/login"; permanent := false |}) in
  let t := [EvGetCookie "app.AuthUserTokens"; EvCreateAuthUser None;
            EvCheck WhenUnauthed] in
  run (withAuthUserTokenSSR sample_env options None (Some titled_page) no_cookies)
    = (r, t)
  ∧ (∀ target, r = Return (Redirect target) → permanent target = false)
  ∧ (∀ pre post,
       t = pre ++ EvCheck WhenAuthed :: post → EvCheck WhenUnauthed ∈ pre)
  ∧ (∀ u t0,
       run (resolve sample_env (useToken_of None) no_cookies) = (Return u, t0) →
       id u = None →
       whenUnauthed_of options = AuthAction.REDIRECT_TO_LOGIN →
       authPageURL_of options = Some "/login" →
       r = Return (Redirect {| destination := Some "/login";
                               permanent := false |})
       ∧ t = t0 ++ [EvCheck WhenUnauthed]).
Proof.
  intros options r t. split; [vm_compute; reflexivity|].
  apply (redirects_are_temporary sample_env no_cookies options None
           (Some titled_page) r t).
  vm_compute; reflexivity.
Defined.

(** A signed-in user and a titled page on the sample deployment. *)
Lemma provider_is_called_once_witness :
  let u := sample_user "good" in
  let t0 := [EvGetCookie "app.AuthUserTokens";
             EvVerifyIdToken (JStr "good") (JStr "fresh")] in
  let t1 := t0 ++ [EvCheck WhenUnauthed; EvCheck WhenAuthed] in
  let ctx' := set_AuthUser good_tokens u in
  let result :=
    run (withAuthUserTokenSSR sample_env None None (Some titled_page) good_tokens) in
  run (resolve sample_env (useToken_of None) good_tokens) = (Return u, t0)
  ∧ decideRedirect sample_env (whenAuthed_of None) (whenUnauthed_of None)
      (appPageURL_of None) (authPageURL_of None) u t0 = (Return None, t1)
  ∧ result.2 = t1 ++ [EvGetServerSideProps ctx']
  ∧ count is_provider_call result.2 = 1
  ∧ ctx_AuthUser ctx' = Some u
  ∧ req ctx' = req good_tokens
  ∧ res ctx' = res good_tokens
  ∧ result.1 =
      match titled_page ctx' with
      | Return composedProps =>
          Return (merged (serialize sample_env u) composedProps)
      | Throw e => Throw e
      end.
Proof.
  intros u t0 t1 ctx' result.
  split; [vm_compute; reflexivity|]. split; [vm_compute; reflexivity|].
  apply (provider_is_called_once sample_env good_tokens None None titled_page
           u t0 t1); vm_compute; reflexivity.
Defined.

(** C10, against the claim: the user is resolved and the handler has its
    defaults, but the provider throws, and the handler throws the
    provider's error instead of returning props. *)
Lemma failing_page_fails_the_request :
  run (resolve sample_env true good_tokens)
  = (Return (sample_user "good"),
     [EvGetCookie "app.AuthUserTokens";
      EvVerifyIdToken (JStr "good") (JStr "fresh")])
  ∧ run (withAuthUserTokenSSR sample_env None None (Some failing_page) good_tokens)
    = (Throw (Error "boom"),
       [EvGetCookie "app.AuthUserTokens";
        EvVerifyIdToken (JStr "good") (JStr "fresh");
        EvCheck WhenUnauthed; EvCheck WhenAuthed;
        EvGetServerSideProps (set_AuthUser good_tokens (sample_user "good"))])
  ∧ ∀ props,
      (run (withAuthUserTokenSSR sample_env None None (Some failing_page)
              good_tokens)).1
      ≠ Return (Props props).
Proof. repeat split; [vm_compute; reflexivity .. | discriminate]. Qed.

(** The default handler on the sample deployment, for a signed-in user. *)
Lemma defaults_always_render_witness :
  let u := sample_user "good" in
  let t0 := [EvGetCookie "app.AuthUserTokens";
             EvVerifyIdToken (JStr "good") (JStr "fresh")] in
  let result :=
    run (withAuthUserTokenSSR sample_env None None (Some titled_page) good_tokens) in
  run (resolve sample_env true good_tokens) = (Return u, t0)
  ∧ (∀ target, result.1 ≠ Return (Redirect target))
  ∧ result.1 =
      Return (merged (serialize sample_env u) (JObj {[ "title" := JStr "Home" ]})).
Proof.
  intros u t0 result.
  assert (run (resolve sample_env true good_tokens) = (Return u, t0))
    as Hresolve by (vm_compute; reflexivity).
  split; [exact Hresolve|].
  destruct (defaults_always_render sample_env good_tokens (Some titled_page)
              u t0 Hresolve) as (_ & _ & Hnever & Hprops).
  split; [exact Hnever | exact Hprops].
Defined.

(** ** Further properties of the handler *)

Section Further.

Context (env : Env).

(** What the handler does once resolution has given a user. *)
Lemma handler_after_resolve (ctx : Ctx) options mode f u (t0 : Trace) :
  run (resolve env (useToken_of mode) ctx) = (Return u, t0) →
  run (withAuthUserTokenSSR env options mode f ctx) =
  if negb (truthy_string (id u))
     && AuthAction.eqb (whenUnauthed_of options) AuthAction.REDIRECT_TO_LOGIN
  then
    (let url :=
       js_or (authPageURL_of options) (config_authPageURL (getConfig env)) in
     if truthy_string url
     then Return (Redirect {| destination := url; permanent := false |})
     else Throw (Error authPageURL_missing),
     t0 ++ [EvCheck WhenUnauthed])
  else if truthy_string (id u)
          && AuthAction.eqb (whenAuthed_of options) AuthAction.REDIRECT_TO_APP
  then
    (let url :=
       js_or (appPageURL_of options) (config_appPageURL (getConfig env)) in
     if truthy_string url
     then Return (Redirect {| destination := url; permanent := false |})
     else Throw (Error appPageURL_missing),
     t0 ++ [EvCheck WhenUnauthed; EvCheck WhenAuthed])
  else
    match f with
    | None =>
        (Return (merged (serialize env u) (JObj ∅)),
         t0 ++ [EvCheck WhenUnauthed; EvCheck WhenAuthed])
    | Some g =>
        (match g (set_AuthUser ctx u) with
         | Return composedProps => Return (merged (serialize env u) composedProps)
         | Throw e => Throw e
         end,
         t0 ++ [EvCheck WhenUnauthed; EvCheck WhenAuthed;
                EvGetServerSideProps (set_AuthUser ctx u)])
    end.
Proof.
  intros Hresolve. rewrite handler_run, Hresolve, decide_run.
  destruct (negb _ && _); cbn.
  { by destruct (truthy_string (js_or _ _)). }
  destruct (truthy_string (id u) && _).
  { by destruct (truthy_string (js_or _ _)). }
  rewrite render_run. destruct f as [g|]; [|done].
  by rewrite <- app_assoc.
Qed.

Lemma handler_resolve_throws (ctx : Ctx) options mode f e (t0 : Trace) :
  run (resolve env (useToken_of mode) ctx) = (Throw e, t0) →
  run (withAuthUserTokenSSR env options mode f ctx) = (Throw e, t0).
Proof. intros Hresolve. by rewrite handler_run, Hresolve. Qed.

Lemma truthy_string_Some (url : string) :
  url ≠ "" → truthy_string (Some url) = true.
Proof. intros Hurl. cbn. by destruct (String.eqb_spec url ""). Qed.

(** X1: a signed-out visitor under [REDIRECT_TO_LOGIN] is sent to the
    [authPageURL] of the options when it is a non-empty string, whatever
    the configuration says, and to the [authPageURL] of the configuration
    when the option is missing or empty; the test for the other redirect is
    not made and the page's provider is not called. *)
Theorem login_redirect_destination (ctx : Ctx) options mode f u t0
    (url : string) :
  run (resolve env (useToken_of mode) ctx) = (Return u, t0) →
  truthy_string (id u) = false →
  whenUnauthed_of options = AuthAction.REDIRECT_TO_LOGIN →
  url ≠ "" →
  authPageURL_of options = Some url
  ∨ (truthy_string (authPageURL_of options) = false
     ∧ config_authPageURL (getConfig env) = Some url) →
  run (withAuthUserTokenSSR env options mode f ctx) =
    (Return (Redirect {| destination := Some url; permanent := false |}),
     t0 ++ [EvCheck WhenUnauthed]).
Proof.
  intros Hresolve Hid Hwhen Hurl Hwhere.
  rewrite (handler_after_resolve _ _ _ _ _ _ Hresolve), Hid, Hwhen.
  cbn -[truthy_string]. unfold js_or.
  destruct Hwhere as [-> | [-> ->]]; by rewrite !truthy_string_Some.
Qed.

(** X2: a signed-in user under [REDIRECT_TO_APP] is sent to the
    [appPageURL] of the options when it is a non-empty string, and to the
    [appPageURL] of the configuration when the option is missing or empty,
    whatever [whenUnauthed] and [authPageURL] are; the page's provider is
    not called. *)
Theorem app_redirect_destination (ctx : Ctx) options mode f u t0
    (url : string) :
  run (resolve env (useToken_of mode) ctx) = (Return u, t0) →
  truthy_string (id u) = true →
  whenAuthed_of options = AuthAction.REDIRECT_TO_APP →
  url ≠ "" →
  appPageURL_of options = Some url
  ∨ (truthy_string (appPageURL_of options) = false
     ∧ config_appPageURL (getConfig env) = Some url) →
  run (withAuthUserTokenSSR env options mode f ctx) =
    (Return (Redirect {| destination := Some url; permanent := false |}),
     t0 ++ [EvCheck WhenUnauthed; EvCheck WhenAuthed]).
Proof.
  intros Hresolve Hid Hwhen Hurl Hwhere.
  rewrite (handler_after_resolve _ _ _ _ _ _ Hresolve), Hid, Hwhen.
  cbn -[truthy_string]. unfold js_or.
  destruct Hwhere as [-> | [-> ->]]; by rewrite !truthy_string_Some.
Qed.

(** X3: the handler returns a redirect only when one is due: the user is
    signed out and [whenUnauthed] is [REDIRECT_TO_LOGIN], or signed in and
    [whenAuthed] is [REDIRECT_TO_APP]; any other pairing of user and action
    renders.  The destination is then a non-empty string, and the provider
    has not been called. *)
Theorem redirect_only_when_due (ctx : Ctx) options mode f target (t : Trace) :
  run (withAuthUserTokenSSR env options mode f ctx)
    = (Return (Redirect target), t) →
  ∃ u t0,
    run (resolve env (useToken_of mode) ctx) = (Return u, t0)
    ∧ ((truthy_string (id u) = false
        ∧ whenUnauthed_of options = AuthAction.REDIRECT_TO_LOGIN)
       ∨ (truthy_string (id u) = true
          ∧ whenAuthed_of options = AuthAction.REDIRECT_TO_APP))
    ∧ (∃ url, destination target = Some url ∧ url ≠ "")
    ∧ count is_provider_call t = 0.
Proof.
  destruct (run (resolve env (useToken_of mode) ctx)) as [[u|e] t0]
    eqn:Hresolve.
  2: { by rewrite (handler_resolve_throws _ _ _ _ _ _ Hresolve). }
  rewrite (handler_after_resolve _ _ _ _ _ _ Hresolve).
  destruct (resolve_events env _ _ _ _ Hresolve) as [Hcount _].
  assert (∀ o, truthy_string o = true → ∃ url, o = Some url ∧ url ≠ "")
    as Hnonempty.
  { intros [url|] Ho; [|done]. exists url. split; [done|].
    intros ->. discriminate Ho. }
  destruct (truthy_string (id u)) eqn:Hid; cbn.
  - destruct (AuthAction.eqb (whenAuthed_of options) _) eqn:Hwhen.
    + destruct (truthy_string (js_or _ _)) eqn:Hurl; [|done].
      intros H. injection H as <- <-. exists u, t0. split; [done|].
      split. { right. by destruct (whenAuthed_of options). }
      split; [by apply Hnonempty|]. by rewrite count_app, Hcount.
    + destruct f as [g|]; [|done]. by destruct (g _).
  - destruct (AuthAction.eqb (whenUnauthed_of options) _) eqn:Hwhen.
    + destruct (truthy_string (js_or _ _)) eqn:Hurl; [|done].
      intros H. injection H as <- <-. exists u, t0. split; [done|].
      split. { left. by destruct (whenUnauthed_of options). }
      split; [by apply Hnonempty|]. by rewrite count_app, Hcount.
    + destruct f as [g|]; [|done]. by destruct (g _).
Qed.

(** X4: a redirect does not depend on the page: when the handler returns a
    redirect for one provider, it returns the same redirect, after the same
    calls, for any other provider and for none. *)
Theorem redirect_ignores_provider (ctx : Ctx) options mode f f' target
    (t : Trace) :
  run (withAuthUserTokenSSR env options mode f ctx)
    = (Return (Redirect target), t) →
  run (withAuthUserTokenSSR env options mode f' ctx)
    = (Return (Redirect target), t).
Proof.
  destruct (run (resolve env (useToken_of mode) ctx)) as [[u|e] t0]
    eqn:Hresolve.
  2: { by rewrite (handler_resolve_throws _ _ _ _ _ _ Hresolve). }
  rewrite !(handler_after_resolve _ _ _ _ _ _ Hresolve).
  destruct (negb _ && _); [done|].
  destruct (truthy_string (id u) && _); [done|].
  destruct f as [g|]; [|done]. by destruct (g _).
Qed.

Lemma count_zero_elem (p : Event → bool) (t : Trace) (e : Event) :
  count p t = 0 → e ∈ t → p e = false.
Proof.
  unfold count. induction t as [|e' t IH]; intros Hcount Hin.
  - by apply elem_of_nil in Hin.
  - cbn in Hcount. destruct (p e') eqn:He'; [discriminate Hcount|].
    apply elem_of_cons in Hin as [-> | Hin]; [done | by apply IH].
Qed.

(** X5: without a provider, the props of a rendered page are the
    serialized user under [AuthUserSerialized] and nothing else; the trace
    ends with the two redirect tests. *)
Theorem props_without_provider (ctx : Ctx) options mode props (t : Trace) :
  run (withAuthUserTokenSSR env options mode None ctx)
    = (Return (Props props), t) →
  ∃ u t0,
    run (resolve env (useToken_of mode) ctx) = (Return u, t0)
    ∧ props = {[ "AuthUserSerialized" := JStr (serialize env u) ]}
    ∧ t = t0 ++ [EvCheck WhenUnauthed; EvCheck WhenAuthed].
Proof.
  destruct (run (resolve env (useToken_of mode) ctx)) as [[u|e] t0]
    eqn:Hresolve.
  2: { by rewrite (handler_resolve_throws _ _ _ _ _ _ Hresolve). }
  rewrite (handler_after_resolve _ _ _ _ _ _ Hresolve).
  destruct (negb _ && _).
  { cbn. by destruct (truthy_string (js_or _ _)). }
  destruct (truthy_string (id u) && _).
  { cbn. by destruct (truthy_string (js_or _ _)). }
  intros H. injection H as <- <-. exists u, t0. split; [done|].
  split; [|done]. unfold object_spread. cbn. by rewrite (left_id_L ∅ (∪)).
Qed.

(** X6: with a provider, every key of the rendered props comes from the
    provider's props, with the provider's value, except the reserved key
    when the provider leaves it out, which holds the serialized user; no
    other key is added. *)
Theorem props_with_provider (ctx : Ctx) options mode g props (t : Trace) :
  run (withAuthUserTokenSSR env options mode (Some g) ctx)
    = (Return (Props props), t) →
  ∃ u t0 composedProps,
    run (resolve env (useToken_of mode) ctx) = (Return u, t0)
    ∧ g (set_AuthUser ctx u) = Return composedProps
    ∧ dom props = dom (own_props composedProps) ∪ {[ "AuthUserSerialized" ]}
    ∧ ∀ k,
        props !! k =
        match own_props composedProps !! k with
        | Some v => Some v
        | None =>
            if String.eqb k "AuthUserSerialized"
            then Some (JStr (serialize env u)) else None
        end.
Proof.
  destruct (run (resolve env (useToken_of mode) ctx)) as [[u|e] t0]
    eqn:Hresolve.
  2: { by rewrite (handler_resolve_throws _ _ _ _ _ _ Hresolve). }
  rewrite (handler_after_resolve _ _ _ _ _ _ Hresolve).
  destruct (negb _ && _).
  { cbn. by destruct (truthy_string (js_or _ _)). }
  destruct (truthy_string (id u) && _).
  { cbn. by destruct (truthy_string (js_or _ _)). }
  destruct (g _) as [c|e] eqn:Hg; [|done].
  intros H. injection H as <- <-. exists u, t0, c. split; [done|].
  split; [done|]. unfold object_spread. split.
  - by rewrite dom_union_L, dom_singleton_L.
  - intros k. rewrite lookup_union.
    destruct (own_props c !! k) as [v|]; cbn.
    + by destruct ({[_ := _]} !! k).
    + destruct (String.eqb_spec k "AuthUserSerialized") as [-> | Hk].
      * by rewrite lookup_singleton_eq.
      * by rewrite lookup_singleton_ne.
Qed.


(** The events of resolution: one cookie read, the cookie of the mode,
    first. *)
Lemma resolve_reads_one_cookie useToken (ctx : Ctx) r (t0 : Trace) :
  run (resolve env useToken ctx) = (r, t0) →
  ∃ rest,
    t0 = EvGetCookie (if useToken then getAuthUserTokensCookieName env
                      else getAuthUserCookieName env) :: rest
    ∧ count is_cookie_read rest = 0.
Proof.
  destruct useToken.
  - rewrite resolve_token_run. cbn.
    destruct (parse_cookie _) as [payload|e].
    2: { intros H. injection H as _ <-. by eexists. }
    destruct (destructure payload) as [[idToken refreshToken]|e].
    2: { intros H. injection H as _ <-. by eexists. }
    destruct (js_truthy idToken); intros H; injection H as _ <-; by eexists.
  - rewrite resolve_snapshot_run. intros H. injection H as _ <-. by eexists.
Qed.

(** What follows resolution reads no cookie and calls no verifier. *)
Lemma handler_tail (ctx : Ctx) options mode f :
  ∃ tail,
    (run (withAuthUserTokenSSR env options mode f ctx)).2
    = (run (resolve env (useToken_of mode) ctx)).2 ++ tail
    ∧ count is_cookie_read tail = 0
    ∧ count is_verify tail = 0.
Proof.
  destruct (run (resolve env (useToken_of mode) ctx)) as [[u|e] t0]
    eqn:Hresolve.
  2: { rewrite (handler_resolve_throws _ _ _ _ _ _ Hresolve). exists [].
       by rewrite app_nil_r. }
  rewrite (handler_after_resolve _ _ _ _ _ _ Hresolve).
  destruct (negb _ && _); [by eexists|].
  destruct (truthy_string (id u) && _); [by eexists|].
  destruct f as [g|]; by eexists.
Qed.

(** X8: every request calls [getCookie] exactly once: for the tokens
    cookie in token mode, for the user cookie in snapshot mode; the call
    comes before any call of the verifier, of [createAuthUser] or of the
    provider and before the redirect tests, and the cookie of the other
    mode is never read. *)
Theorem one_cookie_read_per_request (ctx : Ctx) options mode f :
  ∃ rest,
    (run (withAuthUserTokenSSR env options mode f ctx)).2
    = EvGetCookie (if useToken_of mode then getAuthUserTokensCookieName env
                   else getAuthUserCookieName env) :: rest
    ∧ count is_cookie_read rest = 0.
Proof.
  destruct (handler_tail ctx options mode f) as (tail & -> & Htail & _).
  destruct (run (resolve env (useToken_of mode) ctx)) as [r t0] eqn:Hresolve.
  destruct (resolve_reads_one_cookie _ _ _ _ Hresolve) as (rest & -> & Hrest).
  exists (rest ++ tail). split; [done|]. by rewrite count_app, Hrest, Htail.
Qed.

(** X9: the verifier is called at most once per request, and exactly when
    the handler is in token mode and the payload of the tokens cookie has
    a truthy [idToken]. *)
Theorem verifier_called_iff_idToken (ctx : Ctx) options mode f :
  count is_verify (run (withAuthUserTokenSSR env options mode f ctx)).2 =
  if useToken_of mode then
    match parse_cookie (session_cookie env true ctx) with
    | Return payload =>
        match destructure payload with
        | Return (idToken, _) => if js_truthy idToken then 1 else 0
        | Throw _ => 0
        end
    | Throw _ => 0
    end
  else 0.
Proof.
  destruct (handler_tail ctx options mode f) as (tail & -> & _ & Htail).
  rewrite count_app, Htail, Nat.add_0_r.
  destruct (useToken_of mode).
  - rewrite resolve_token_run. cbn.
    destruct (parse_cookie _) as [payload|e]; [|done].
    destruct (destructure payload) as [[idToken refreshToken]|e]; [|done].
    by destruct (js_truthy idToken).
  - by rewrite resolve_snapshot_run.
Qed.

(** X10: resolution looks at the request through the session cookie of
    its mode only: two requests with the same session cookie resolve to
    the same user after the same calls, whatever else they carry. *)
Theorem resolution_depends_on_session_cookie useToken (ctx ctx' : Ctx) :
  session_cookie env useToken ctx = session_cookie env useToken ctx' →
  run (resolve env useToken ctx) = run (resolve env useToken ctx').
Proof.
  intros Hsame. destruct useToken.
  - by rewrite !resolve_token_run, Hsame.
  - by rewrite !resolve_snapshot_run, Hsame.
Qed.

(** X11: when the provider is called, it is the last thing the handler
    does before it returns: resolution has given a user, both redirect
    tests have been made, and the context passed has the [req] and [res]
    of the request and that user as [AuthUser]. *)
Theorem provider_call_is_last (ctx : Ctx) options mode f r (t : Trace) c :
  run (withAuthUserTokenSSR env options mode f ctx) = (r, t) →
  EvGetServerSideProps c ∈ t →
  ∃ g u t0,
    f = Some g
    ∧ run (resolve env (useToken_of mode) ctx) = (Return u, t0)
    ∧ req c = req ctx
    ∧ res c = res ctx
    ∧ ctx_AuthUser c = Some u
    ∧ t = t0 ++ [EvCheck WhenUnauthed; EvCheck WhenAuthed;
                 EvGetServerSideProps c].
Proof.
  destruct (run (resolve env (useToken_of mode) ctx)) as [[u|e] t0]
    eqn:Hresolve.
  2: { rewrite (handler_resolve_throws _ _ _ _ _ _ Hresolve).
       intros H Hin. injection H as _ <-.
       destruct (resolve_events env _ _ _ _ Hresolve) as [Hcount _].
       by apply (count_zero_elem _ _ _ Hcount) in Hin. }
  destruct (resolve_events env _ _ _ _ Hresolve) as [Hcount _].
  assert (∀ tail, count is_provider_call tail = 0 →
            EvGetServerSideProps c ∉ t0 ++ tail) as Hfree.
  { intros tail Htail Hin.
    assert (count is_provider_call (t0 ++ tail) = 0) as Hall
      by by rewrite count_app, Hcount, Htail.
    by apply (count_zero_elem _ _ _ Hall) in Hin. }
  rewrite (handler_after_resolve _ _ _ _ _ _ Hresolve).
  destruct (negb _ && _).
  { intros H Hin. injection H as _ <-. exfalso.
    by refine (Hfree _ _ Hin). }
  destruct (truthy_string (id u) && _).
  { intros H Hin. injection H as _ <-. exfalso.
    by refine (Hfree _ _ Hin). }
  destruct f as [g|].
  2: { intros H Hin. injection H as _ <-. exfalso.
    by refine (Hfree _ _ Hin). }
  intros H Hin. injection H as _ <-. exists g, u, t0.
  split; [done|]. split; [done|].
  apply elem_of_app in Hin as [Hin | Hin].
  { by apply (count_zero_elem _ _ _ Hcount) in Hin. }
  apply elem_of_cons in Hin as [Hin | Hin]; [discriminate Hin|].
  apply elem_of_cons in Hin as [Hin | Hin]; [discriminate Hin|].
  apply list_elem_of_singleton in Hin. injection Hin as ->. done.
Qed.

(** The decimal numerals that index arrays and strings start with a
    digit. *)
Lemma pretty_N_go_head (c : ascii) (x : N) (s s' : string) :
  (∀ d, pretty_N_char d ≠ c) →
  s ≠ String c s' → pretty_N_go x s ≠ String c s'.
Proof.
  intros Hc. revert s. induction (N.lt_wf_0 x) as [x _ IH]; intros s Hs.
  assert (x = 0 ∨ 0 < x)%N as [-> | Hpos] by lia.
  - by rewrite pretty_N_go_0.
  - rewrite pretty_N_go_step by done. apply IH.
    { by apply N.div_lt. }
    intros Heq. injection Heq as Heq _. by apply (Hc (x `mod` 10)%N).
Qed.

Lemma pretty_nat_head (c : ascii) (i : nat) (s' : string) :
  (∀ d, pretty_N_char d ≠ c) → pretty i ≠ String c s'.
Proof.
  intros Hc. unfold pretty, pretty_nat, pretty, pretty_N.
  destruct (decide (N.of_nat i = 0%N)).
  - intros Heq. injection Heq as Heq _. by apply (Hc 0%N).
  - by apply pretty_N_go_head.
Qed.

Lemma indexed_lookup_name (c : ascii) (s' : string) (xs : list JsVal) :
  (∀ d, pretty_N_char d ≠ c) → indexed xs !! String c s' = None.
Proof.
  intros Hc. unfold indexed.
  assert (∀ (f : nat → nat),
            (list_to_map (imap (λ i x, (pretty (f i), x)) xs)
               : gmap string JsVal) !! String c s' = None) as Hgen.
  { induction xs as [|x xs IH]; intros f; [done|].
    cbn. rewrite lookup_insert_ne by by apply pretty_nat_head.
    apply (IH (f ∘ S)). }
  apply (Hgen (λ i, i)).
Qed.

Lemma not_a_digit_i d : pretty_N_char d ≠ "i"%char.
Proof. unfold pretty_N_char. by repeat case_match. Qed.

Lemma not_a_digit_r d : pretty_N_char d ≠ "r"%char.
Proof. unfold pretty_N_char. by repeat case_match. Qed.

(** X12: in token mode a tokens cookie whose JSON is not an object holds
    no credential: an array, a string, a number or a boolean has no
    [idToken] and resolves to the anonymous user without a call to the
    verifier, while [null] makes the destructuring throw a [TypeError]. *)
Theorem payload_that_is_no_object (ctx : Ctx) payload :
  parse_cookie (session_cookie env true ctx) = Return payload →
  (∀ fields, payload ≠ JObj fields) →
  run (resolve env true ctx) =
  match payload with
  | JUndefined | JNull =>
      (Throw TypeError, [EvGetCookie (getAuthUserTokensCookieName env)])
  | _ =>
      (Return anonymous,
       [EvGetCookie (getAuthUserTokensCookieName env); EvCreateAuthUser None])
  end.
Proof.
  intros Hparse Hobject. rewrite resolve_token_run, Hparse. cbn.
  destruct payload as [| |b|m e|s|xs|fields]; try done.
  - unfold destructure, get_prop. cbn.
    by rewrite !indexed_lookup_name
      by (apply not_a_digit_i || apply not_a_digit_r).
  - unfold destructure, get_prop. cbn.
    by rewrite !indexed_lookup_name
      by (apply not_a_digit_i || apply not_a_digit_r).
  - by destruct (Hobject fields).
Qed.

(** X13: the actions are not validated: options whose [whenUnauthed] is
    not [REDIRECT_TO_LOGIN] and whose [whenAuthed] is not [REDIRECT_TO_APP]
    make the handler behave as with no options at all, whatever URLs they
    give; an action given on the wrong side is ignored without an error. *)
Theorem misplaced_actions_are_ignored (ctx : Ctx) options mode f :
  whenUnauthed_of options ≠ AuthAction.REDIRECT_TO_LOGIN →
  whenAuthed_of options ≠ AuthAction.REDIRECT_TO_APP →
  run (withAuthUserTokenSSR env options mode f ctx)
  = run (withAuthUserTokenSSR env None mode f ctx).
Proof.
  intros Hunauthed Hauthed.
  assert (AuthAction.eqb (whenUnauthed_of options)
            AuthAction.REDIRECT_TO_LOGIN = false) as Hu
    by by destruct (whenUnauthed_of options).
  assert (AuthAction.eqb (whenAuthed_of options)
            AuthAction.REDIRECT_TO_APP = false) as Ha
    by by destruct (whenAuthed_of options).
  destruct (run (resolve env (useToken_of mode) ctx)) as [[u|e] t0]
    eqn:Hresolve.
  2: { by rewrite !(handler_resolve_throws _ _ _ _ _ _ Hresolve). }
  rewrite !(handler_after_resolve _ _ _ _ _ _ Hresolve), Hu, Ha. cbn.
  by rewrite !andb_false_r.
Qed.

End Further.

(** ** The further properties on the sample deployment *)

(** No option, the URL of the configuration. *)
Lemma login_redirect_destination_witness :
  let options := Some (login_wall None) in
  let t0 := [EvGetCookie "app.AuthUserTokens"; EvCreateAuthUser None] in
  run (resolve sample_env_with_urls (useToken_of None) no_cookies)
    = (Return anonymous, t0)
  ∧ run (withAuthUserTokenSSR sample_env_with_urls options None
           (Some titled_page) no_cookies)
    = (Return (Redirect {| destination := Some "/auth"; permanent := false |}),
       t0 ++ [EvCheck WhenUnauthed]).
Proof.
  intros options t0.
  assert (run (resolve sample_env_with_urls (useToken_of None) no_cookies)
          = (Return anonymous, t0)) as Hresolve by (vm_compute; reflexivity).
  split; [exact Hresolve|].
  apply (login_redirect_destination sample_env_with_urls no_cookies options
           None (Some titled_page) anonymous t0 "/auth" Hresolve);
    [reflexivity | reflexivity | discriminate |].
  right. split; reflexivity.
Defined.

(** A signed-in user on a page for guests, with its URL in the options. *)
Lemma app_redirect_destination_witness :
  let options := Some (guest_only (Some "/home")) in
  let t0 := [EvGetCookie "app.AuthUserTokens";
             EvVerifyIdToken (JStr "good") (JStr "fresh")] in
  run (resolve sample_env_with_urls (useToken_of None) good_tokens)
    = (Return (sample_user "good"), t0)
  ∧ run (withAuthUserTokenSSR sample_env_with_urls options None
           (Some titled_page) good_tokens)
    = (Return (Redirect {| destination := Some "/home"; permanent := false |}),
       t0 ++ [EvCheck WhenUnauthed; EvCheck WhenAuthed]).
Proof.
  intros options t0.
  assert (run (resolve sample_env_with_urls (useToken_of None) good_tokens)
          = (Return (sample_user "good"), t0)) as Hresolve
    by (vm_compute; reflexivity).
  split; [exact Hresolve|].
  apply (app_redirect_destination sample_env_with_urls good_tokens options
           None (Some titled_page) (sample_user "good") t0 "/home" Hresolve);
    [reflexivity | reflexivity | discriminate |].
  left. reflexivity.
Defined.

(** The login wall at [/login], for a visitor without cookies. *)
Lemma redirect_only_when_due_witness :
  let options := Some (login_wall (Some "/login")) in
  let target := {| destination := Some "/login"; permanent := false |} in
  let t := [EvGetCookie "app.AuthUserTokens"; EvCreateAuthUser None;
            EvCheck WhenUnauthed] in
  run (withAuthUserTokenSSR sample_env options None (Some titled_page) no_cookies)
    = (Return (Redirect target), t)
  ∧ ∃ u t0,
      run (resolve sample_env (useToken_of None) no_cookies) = (Return u, t0)
      ∧ ((truthy_string (id u) = false
          ∧ whenUnauthed_of options = AuthAction.REDIRECT_TO_LOGIN)
         ∨ (truthy_string (id u) = true
            ∧ whenAuthed_of options = AuthAction.REDIRECT_TO_APP))
      ∧ (∃ url, destination target = Some url ∧ url ≠ "")
      ∧ count is_provider_call t = 0.
Proof.
  intros options target t.
  assert (run (withAuthUserTokenSSR sample_env options None
                 (Some titled_page) no_cookies)
          = (Return (Redirect target), t)) as Hrun by (vm_compute; reflexivity).
  split; [exact Hrun|].
  exact (redirect_only_when_due sample_env no_cookies options None
           (Some titled_page) target t Hrun).
Defined.

(** The same redirect with a page and without one. *)
Lemma redirect_ignores_provider_witness :
  let options := Some (login_wall (Some "/login")) in
  let target := {| destination := Some "/login"; permanent := false |} in
  let t := [EvGetCookie "app.AuthUserTokens"; EvCreateAuthUser None;
            EvCheck WhenUnauthed] in
  run (withAuthUserTokenSSR sample_env options None (Some titled_page) no_cookies)
    = (Return (Redirect target), t)
  ∧ run (withAuthUserTokenSSR sample_env options None None no_cookies)
    = (Return (Redirect target), t).
Proof.
  intros options target t.
  assert (run (withAuthUserTokenSSR sample_env options None
                 (Some titled_page) no_cookies)
          = (Return (Redirect target), t)) as Hrun by (vm_compute; reflexivity).
  split; [exact Hrun|].
  exact (redirect_ignores_provider sample_env no_cookies options None
           (Some titled_page) None target t Hrun).
Defined.

(** The default handler without a page, for a visitor without cookies. *)
Lemma props_without_provider_witness :
  let props : gmap string JsVal := {[ "AuthUserSerialized" := JStr "anonymous" ]} in
  let t := [EvGetCookie "app.AuthUserTokens"; EvCreateAuthUser None;
            EvCheck WhenUnauthed; EvCheck WhenAuthed] in
  run (withAuthUserTokenSSR sample_env None None None no_cookies)
    = (Return (Props props), t)
  ∧ ∃ u t0,
      run (resolve sample_env (useToken_of None) no_cookies) = (Return u, t0)
      ∧ props = {[ "AuthUserSerialized" := JStr (serialize sample_env u) ]}
      ∧ t = t0 ++ [EvCheck WhenUnauthed; EvCheck WhenAuthed].
Proof.
  intros props t.
  assert (run (withAuthUserTokenSSR sample_env None None None no_cookies)
          = (Return (Props props), t)) as Hrun by (vm_compute; reflexivity).
  split; [exact Hrun|].
  exact (props_without_provider sample_env no_cookies None None props t Hrun).
Defined.

(** The titled page for a signed-in user. *)
Lemma props_with_provider_witness :
  let props : gmap string JsVal :=
    {[ "AuthUserSerialized" := JStr "uid-1"; "title" := JStr "Home" ]} in
  let t := [EvGetCookie "app.AuthUserTokens";
            EvVerifyIdToken (JStr "good") (JStr "fresh");
            EvCheck WhenUnauthed; EvCheck WhenAuthed;
            EvGetServerSideProps (set_AuthUser good_tokens (sample_user "good"))] in
  run (withAuthUserTokenSSR sample_env None None (Some titled_page) good_tokens)
    = (Return (Props props), t)
  ∧ ∃ u t0 composedProps,
      run (resolve sample_env (useToken_of None) good_tokens) = (Return u, t0)
      ∧ titled_page (set_AuthUser good_tokens u) = Return composedProps
      ∧ dom props = dom (own_props composedProps) ∪ {[ "AuthUserSerialized" ]}
      ∧ ∀ k,
          props !! k =
          match own_props composedProps !! k with
          | Some v => Some v
          | None =>
              if String.eqb k "AuthUserSerialized"
              then Some (JStr (serialize sample_env u)) else None
          end.
Proof.
  intros props t.
  assert (run (withAuthUserTokenSSR sample_env None None (Some titled_page)
                 good_tokens)
          = (Return (Props props), t)) as Hrun by (vm_compute; reflexivity).
  split; [exact Hrun|].
  exact (props_with_provider sample_env good_tokens None None titled_page
           props t Hrun).
Defined.


(** In token mode a request with both cookies resolves as the request
    with the tokens cookie alone. *)
Lemma resolution_depends_on_session_cookie_witness :
  session_cookie sample_env true both_cookies
  = session_cookie sample_env true id_token_only
  ∧ run (resolve sample_env true both_cookies)
    = run (resolve sample_env true id_token_only).
Proof.
  assert (session_cookie sample_env true both_cookies
          = session_cookie sample_env true id_token_only) as Hsame
    by (vm_compute; reflexivity).
  split; [exact Hsame|].
  exact (resolution_depends_on_session_cookie sample_env true both_cookies
           id_token_only Hsame).
Defined.

(** The call of the titled page for a signed-in user. *)
Lemma provider_call_is_last_witness :
  let c := set_AuthUser good_tokens (sample_user "good") in
  let r : Outcome SSRResult :=
    Return (Props {[ "AuthUserSerialized" := JStr "uid-1";
                     "title" := JStr "Home" ]}) in
  let t := [EvGetCookie "app.AuthUserTokens";
            EvVerifyIdToken (JStr "good") (JStr "fresh");
            EvCheck WhenUnauthed; EvCheck WhenAuthed;
            EvGetServerSideProps c] in
  (run (withAuthUserTokenSSR sample_env None None (Some titled_page) good_tokens)
     = (r, t)
   ∧ EvGetServerSideProps c ∈ t)
  ∧ ∃ g u t0,
      Some titled_page = Some g
      ∧ run (resolve sample_env (useToken_of None) good_tokens) = (Return u, t0)
      ∧ req c = req good_tokens
      ∧ res c = res good_tokens
      ∧ ctx_AuthUser c = Some u
      ∧ t = t0 ++ [EvCheck WhenUnauthed; EvCheck WhenAuthed;
                   EvGetServerSideProps c].
Proof.
  intros c r t.
  assert (run (withAuthUserTokenSSR sample_env None None (Some titled_page)
                 good_tokens) = (r, t)) as Hrun by (vm_compute; reflexivity).
  assert (EvGetServerSideProps c ∈ t) as Hin.
  { do 4 apply list_elem_of_further. apply list_elem_of_here. }
  split; [exact (conj Hrun Hin)|].
  exact (provider_call_is_last sample_env good_tokens None None
           (Some titled_page) r t c Hrun Hin).
Defined.

(** A tokens cookie that holds an array. *)
Lemma payload_that_is_no_object_witness :
  let payload := JArr [JNum 1 0; JNum 2 0] in
  (parse_cookie (session_cookie sample_env true array_tokens) = Return payload
   ∧ ∀ fields, payload ≠ JObj fields)
  ∧ run (resolve sample_env true array_tokens)
    = (Return anonymous,
       [EvGetCookie (getAuthUserTokensCookieName sample_env);
        EvCreateAuthUser None]).
Proof.
  intros payload.
  assert (parse_cookie (session_cookie sample_env true array_tokens)
          = Return payload) as Hparse by (vm_compute; reflexivity).
  assert (∀ fields, payload ≠ JObj fields) as Hobject by discriminate.
  split; [exact (conj Hparse Hobject)|].
  exact (payload_that_is_no_object sample_env array_tokens payload
           Hparse Hobject).
Defined.

(** Swapped actions for a signed-in user: the page renders. *)
Lemma misplaced_actions_are_ignored_witness :
  (whenUnauthed_of (Some swapped_actions) ≠ AuthAction.REDIRECT_TO_LOGIN
   ∧ whenAuthed_of (Some swapped_actions) ≠ AuthAction.REDIRECT_TO_APP)
  ∧ run (withAuthUserTokenSSR sample_env (Some swapped_actions) None
           (Some titled_page) good_tokens)
    = run (withAuthUserTokenSSR sample_env None None (Some titled_page)
             good_tokens).
Proof.
  assert (whenUnauthed_of (Some swapped_actions) ≠ AuthAction.REDIRECT_TO_LOGIN)
    as Hunauthed by discriminate.
  assert (whenAuthed_of (Some swapped_actions) ≠ AuthAction.REDIRECT_TO_APP)
    as Hauthed by discriminate.
  split; [exact (conj Hunauthed Hauthed)|].
  exact (misplaced_actions_are_ignored sample_env good_tokens
           (Some swapped_actions) None (Some titled_page) Hunauthed Hauthed).
Defined.
